(** * Azure Cosmos DB Mongo collection table: list and get hydrate functions

    A shallow embedding of [azure/table_azure_cosmosdb_mongo_collection.go]:
    the column declarations of the table, the list hydrate function
    [listCosmosDBMongoCollections] and the get hydrate function
    [getCosmosDBMongoCollection].

    Go strings are byte sequences, so they are modelled by [string] (a list
    of 8-bit characters) and [len] by [String.length].  A Go pointer that may
    be nil is an [option]; dereferencing [None] is a run-time panic.  Calls
    into the plugin SDK and the Azure SDK are effects of a small free monad
    [prog]; a [host] answers them and [run] records every call, with its
    answer, in a trace. *)

From Stdlib Require Import ZArith Ascii String List Lia.
From stdpp Require Import base option list strings gmap.

Local Open Scope string_scope.
Local Open Scope Z_scope.

(** ** Strings *)

Module strings.

(** [strings.Split(s, sep)] for a separator of one byte, the only way the
    table calls it: the substrings between the separators, in order; a
    string without separator (also the empty one) is returned whole. *)
Fixpoint Split (s : string) (sep : ascii) : list string :=
  match s with
  | EmptyString => [EmptyString]
  | String c rest =>
      if Ascii.eqb c sep then EmptyString :: Split rest sep
      else match Split rest sep with
           | [] => [String c EmptyString]
           | hd :: tl => String c hd :: tl
           end
  end.

Definition isUpper (c : ascii) : bool :=
  let n := nat_of_ascii c in (Nat.leb 65 n && Nat.leb n 90)%bool.

Definition lowerByte (c : ascii) : ascii :=
  if isUpper c then ascii_of_nat (nat_of_ascii c + 32) else c.

(** [strings.ToLower] on a string of 7-bit bytes, where Go maps the letters
    A to Z to a to z byte by byte and keeps every other byte.  Go reads any
    other string as UTF-8 and maps its runes by the Unicode tables, which are
    not modelled: there this definition keeps the bytes above 127 as they
    are.  What is proved from the body of this definition is stated for
    strings of 7-bit bytes. *)
Fixpoint ToLower (s : string) : string :=
  match s with
  | EmptyString => EmptyString
  | String c rest => String (lowerByte c) (ToLower rest)
  end.

End strings.

(** ** Data model *)

(** A Go [error]; remote failures carry the provider's error code. *)
Record error := { Code : string; Message : string }.

Inductive panic :=
| NilDereference
| IndexOutOfRange (index length : nat)
| TypeAssertion.

(** [proto.QualValue], the value of an equality qualifier. *)
Inductive QualValue :=
| StringValue (s : string)
| Int64Value (z : Z)
| BoolValue (b : bool)
| JsonbValue (s : string).

(** [q.GetStringValue()]: the generated getter is nil-safe and answers the
    empty string for a nil qualifier and for a qualifier of another kind. *)
Definition GetStringValue (q : option QualValue) : string :=
  match q with
  | Some (StringValue s) => s
  | _ => ""
  end.

Record QueryData := { EqualsQuals : gmap string QualValue }.

(** The parent item of the list call, [databaseAccountInfo] of the account
    table (the fields this table reads). *)
Record databaseAccountInfo := {
  AccountName : option string;
  AccountResourceGroup : option string
}.

(** [h.Item] is an [interface{}]. *)
Inductive item :=
| AccountItem (a : databaseAccountInfo)
| OtherItem.

Record HydrateData := { Item : item }.

Inductive Authorizer :=
| NullAuthorizer
| TokenAuthorizer (token : string).

Record Session := {
  SubscriptionID : string;
  ResourceManagerEndpoint : string;
  SessionAuthorizer : Authorizer
}.

Module documentdb.

Record AutoscaleSettings := { MaxThroughput : option Z }.

Record MongoDBCollectionGetPropertiesOptions := {
  Throughput : option Z;
  AutoscaleSettings_ : option AutoscaleSettings
}.

(** [Ts] is an [interface{}] in the SDK; the provider sends a number. *)
Record MongoDBCollectionGetPropertiesResource := {
  ResourceID : option string;
  AnalyticalStorageTTL : option Z;
  Rid : option string;
  Ts : option Z;
  Etag : option string
}.

Record MongoDBCollectionGetProperties := {
  Resource : option MongoDBCollectionGetPropertiesResource;
  Options : option MongoDBCollectionGetPropertiesOptions
}.

Record MongoDBCollectionGetResults := {
  Properties : option MongoDBCollectionGetProperties;
  ID : option string;
  Name : option string;
  Type_ : option string;
  Location : option string;
  Tags : gmap string (option string)
}.

Record MongoDBCollectionListResult := {
  Value : option (list MongoDBCollectionGetResults)
}.

Record MongoDBResourcesClient := {
  BaseURI : string;
  ClientSubscriptionID : string;
  ClientAuthorizer : Authorizer
}.

Definition NewMongoDBResourcesClientWithBaseURI (baseURI subscriptionID : string)
  : MongoDBResourcesClient :=
  {| BaseURI := baseURI;
     ClientSubscriptionID := subscriptionID;
     ClientAuthorizer := NullAuthorizer |}.

Definition withAuthorizer (c : MongoDBResourcesClient) (a : Authorizer)
  : MongoDBResourcesClient :=
  {| BaseURI := BaseURI c;
     ClientSubscriptionID := ClientSubscriptionID c;
     ClientAuthorizer := a |}.

End documentdb.

Record mongoCollectionInfo := {
  MongoCollection : documentdb.MongoDBCollectionGetResults;
  Account : option string;
  Database : option string;
  Name : option string;
  ResourceGroup : option string;
  Location : option string
}.

(** What a hydrate function returns: [(interface{}, error)]. *)
Definition hydrateResult : Type := option mongoCollectionInfo * option error.

(** ** Effects *)

(** The calls the two hydrate functions make into their environment. *)
Inductive effect : Type -> Type :=
| LoggerTrace (msg : string) : effect unit
| GetNewSession (d : QueryData) (tokenAudience : string) : effect (Session + error)
| ListMongoDBCollections (c : documentdb.MongoDBResourcesClient)
    (resourceGroupName accountName databaseName : string)
    : effect (documentdb.MongoDBCollectionListResult + error)
| GetMongoDBCollection (c : documentdb.MongoDBResourcesClient)
    (resourceGroupName accountName databaseName collectionName : string)
    : effect (documentdb.MongoDBCollectionGetResults + error)
| StreamLeafListItem (row : mongoCollectionInfo) : effect unit
| RowsRemaining : effect Z.

(** A finite program over these effects; [Throw] is a Go panic. *)
Inductive prog (A : Type) : Type :=
| Ret (a : A)
| Throw (p : panic)
| Vis {X : Type} (e : effect X) (k : X -> prog A).

Arguments Ret {A} a.
Arguments Throw {A} p.
Arguments Vis {A X} e k.

Fixpoint bind {A B : Type} (m : prog A) (f : A -> prog B) : prog B :=
  match m with
  | Ret a => f a
  | Throw p => Throw p
  | Vis e k => Vis e (fun x => bind (k x) f)
  end.

#[export] Instance prog_ret : MRet prog := @Ret.
#[export] Instance prog_bind : MBind prog := fun A B f m => bind m f.

Definition call {X : Type} (e : effect X) : prog X := Vis e Ret.

(** [*p] *)
Definition deref {A : Type} (p : option A) : prog A :=
  match p with
  | Some a => Ret a
  | None => Throw NilDereference
  end.

(** [l[i]] *)
Definition index {A : Type} (l : list A) (i : nat) : prog A :=
  match l !! i with
  | Some a => Ret a
  | None => Throw (IndexOutOfRange i (length l))
  end.

(** [h.Item.(databaseAccountInfo)] *)
Definition assertAccount (i : item) : prog databaseAccountInfo :=
  match i with
  | AccountItem a => Ret a
  | OtherItem => Throw TypeAssertion
  end.

(** The client both hydrate functions build from the session:
    [NewMongoDBResourcesClientWithBaseURI] followed by the assignment of the
    authorizer. *)
Definition clientOf (session : Session) : documentdb.MongoDBResourcesClient :=
  let subscriptionID := SubscriptionID session in
  documentdb.withAuthorizer
    (documentdb.NewMongoDBResourcesClientWithBaseURI
       (ResourceManagerEndpoint session) subscriptionID)
    (SessionAuthorizer session).

(** ** The list function *)

(** The body of [for _, mongoCollection := range *result.Value], and the
    [return nil, err] that follows the loop. *)
Fixpoint rangeMongoCollections (account : databaseAccountInfo) (databaseName : string)
    (err : option error) (items : list documentdb.MongoDBCollectionGetResults)
    : prog hydrateResult :=
  match items with
  | [] => Ret (None, err)
  | mongoCollection :: rest =>
      id ← deref (documentdb.ID mongoCollection);
      resourceGroup ← index (strings.Split id "/") 4;
      _ ← call (StreamLeafListItem
                  {| MongoCollection := mongoCollection;
                     Account := AccountName account;
                     Database := Some databaseName;
                     Name := documentdb.Name mongoCollection;
                     ResourceGroup := Some resourceGroup;
                     Location := documentdb.Location mongoCollection |});
      remaining ← call RowsRemaining;
      if remaining =? 0 then Ret (None, None)
      else rangeMongoCollections account databaseName err rest
  end.

Definition listCosmosDBMongoCollections (d : QueryData) (h : HydrateData)
    : prog hydrateResult :=
  account ← assertAccount (Item h);
  let databaseName := GetStringValue (EqualsQuals d !! "database_name") in
  if String.eqb databaseName "" then Ret (None, None)
  else
    s ← call (GetNewSession d "MANAGEMENT");
    match s with
    | inr err => Ret (None, Some err)
    | inl session =>
        let documentDBClient := clientOf session in
        resourceGroupName ← deref (AccountResourceGroup account);
        accountName ← deref (AccountName account);
        r ← call (ListMongoDBCollections documentDBClient
                    resourceGroupName accountName databaseName);
        match r with
        | inr err => Ret (None, Some err)
        | inl result =>
            items ← deref (documentdb.Value result);
            rangeMongoCollections account databaseName None items
        end
    end.

(** ** The get function *)

Definition getCosmosDBMongoCollection (d : QueryData) (h : HydrateData)
    : prog hydrateResult :=
  _ ← call (LoggerTrace "getCosmosDBMongoCollection");
  let name := GetStringValue (EqualsQuals d !! "name") in
  let resourceGroup := GetStringValue (EqualsQuals d !! "resource_group") in
  let accountName := GetStringValue (EqualsQuals d !! "account_name") in
  let databaseName := GetStringValue (EqualsQuals d !! "database_name") in
  if ((String.length accountName <? 3)%nat || (String.length resourceGroup <? 1)%nat)%bool
  then Ret (None, None)
  else
    s ← call (GetNewSession d "MANAGEMENT");
    match s with
    | inr err => Ret (None, Some err)
    | inl session =>
        let documentDBClient := clientOf session in
        r ← call (GetMongoDBCollection documentDBClient
                    resourceGroup accountName databaseName name);
        match r with
        | inr err => Ret (None, Some err)
        | inl result =>
            Ret (Some {| MongoCollection := result;
                         Account := Some accountName;
                         Database := Some databaseName;
                         Name := documentdb.Name result;
                         ResourceGroup := Some resourceGroup;
                         Location := documentdb.Location result |},
                 None)
        end
    end.

(** ** Running a hydrate function against a host *)

(** One call into the environment, with the answer it got. *)
Inductive event :=
| EvLoggerTrace (msg : string)
| EvGetNewSession (d : QueryData) (tokenAudience : string) (r : Session + error)
| EvListMongoDBCollections (c : documentdb.MongoDBResourcesClient)
    (resourceGroupName accountName databaseName : string)
    (r : documentdb.MongoDBCollectionListResult + error)
| EvGetMongoDBCollection (c : documentdb.MongoDBResourcesClient)
    (resourceGroupName accountName databaseName collectionName : string)
    (r : documentdb.MongoDBCollectionGetResults + error)
| EvStreamLeafListItem (row : mongoCollectionInfo)
| EvRowsRemaining (remaining : Z).

(** The environment of one invocation: the session factory, the two remote
    operations, and the answer of [d.RowsRemaining(ctx)] once a given number
    of rows has been streamed by this invocation (0 when the limit is reached
    or the context is cancelled). *)
Record host := {
  hostGetNewSession : QueryData -> string -> Session + error;
  hostListMongoDBCollections :
    documentdb.MongoDBResourcesClient -> string -> string -> string ->
    documentdb.MongoDBCollectionListResult + error;
  hostGetMongoDBCollection :
    documentdb.MongoDBResourcesClient -> string -> string -> string -> string ->
    documentdb.MongoDBCollectionGetResults + error;
  hostRowsRemaining : nat -> Z
}.

Definition handle {X : Type} (hst : host) (streamed : nat) (e : effect X)
    : X * nat * event :=
  match e in effect X return X * nat * event with
  | LoggerTrace msg => (tt, streamed, EvLoggerTrace msg)
  | GetNewSession d aud =>
      let r := hostGetNewSession hst d aud in (r, streamed, EvGetNewSession d aud r)
  | ListMongoDBCollections c rg an dn =>
      let r := hostListMongoDBCollections hst c rg an dn in
      (r, streamed, EvListMongoDBCollections c rg an dn r)
  | GetMongoDBCollection c rg an dn cn =>
      let r := hostGetMongoDBCollection hst c rg an dn cn in
      (r, streamed, EvGetMongoDBCollection c rg an dn cn r)
  | StreamLeafListItem row => (tt, S streamed, EvStreamLeafListItem row)
  | RowsRemaining =>
      let n := hostRowsRemaining hst streamed in (n, streamed, EvRowsRemaining n)
  end.

Inductive outcome (A : Type) : Type :=
| Returned (a : A)
| Panicked (p : panic).

Arguments Returned {A} a.
Arguments Panicked {A} p.

(** [runFrom hst streamed p]: how [p] ends and the calls it made, in order,
    when [streamed] rows were streamed before it starts. *)
Fixpoint runFrom {A : Type} (hst : host) (streamed : nat) (p : prog A)
    : outcome A * list event :=
  match p with
  | Ret a => (Returned a, [])
  | Throw q => (Panicked q, [])
  | Vis e k =>
      let '(x, streamed', ev) := handle hst streamed e in
      let '(o, t) := runFrom hst streamed' (k x) in
      (o, ev :: t)
  end.

Definition run {A : Type} (hst : host) (p : prog A) : outcome A * list event :=
  runFrom hst 0 p.

(** The rows of a trace: what reached the caller's sink. *)
Definition streamedRow (ev : event) : option mongoCollectionInfo :=
  match ev with
  | EvStreamLeafListItem row => Some row
  | _ => None
  end.

Definition rows (t : list event) : list mongoCollectionInfo := omap streamedRow t.

(** Session creation and the two operations of the provider. *)
Definition isRemoteCall (ev : event) : bool :=
  match ev with
  | EvGetNewSession _ _ _ => true
  | EvListMongoDBCollections _ _ _ _ _ => true
  | EvGetMongoDBCollection _ _ _ _ _ _ => true
  | _ => false
  end.

Definition remoteCalls (t : list event) : list event := List.filter isRemoteCall t.

(** The resource group of a list item, [strings.Split(id, "/")[4]] on the
    dereferenced identifier; [None] when the expression panics. *)
Definition resourceGroupOf (id : option string) : option string :=
  s ← id; strings.Split s "/" !! 4%nat.

(** An item for which that expression has a value. *)
Definition wellFormed (mc : documentdb.MongoDBCollectionGetResults) : Prop :=
  is_Some (resourceGroupOf (documentdb.ID mc)).

(** The row the list function streams for an item whose resource group is
    [rg]. *)
Definition streamedInfo (account : databaseAccountInfo) (databaseName : string)
    (mc : documentdb.MongoDBCollectionGetResults) (rg : string) : mongoCollectionInfo :=
  {| MongoCollection := mc;
     Account := AccountName account;
     Database := Some databaseName;
     Name := documentdb.Name mc;
     ResourceGroup := Some rg;
     Location := documentdb.Location mc |}.

(** ** Column values and transforms *)

(** A hydrate item as the SDK's reflection sees it, and the values the
    transforms pass along.  A nil pointer, at any depth, is [Nil]. *)
#[local] Set Warnings "-register-all".

Inductive value :=
| Nil
| Str (s : string)
| Int (z : Z)
| StrMap (m : gmap string (option string))
| StrList (l : list string)
| Struct (fields : list (string * value)).

Definition ofString (p : option string) : value := from_option Str Nil p.
Definition ofInt (p : option Z) : value := from_option Int Nil p.
Definition ofPointer {A : Type} (f : A -> value) (p : option A) : value :=
  from_option f Nil p.

Definition reflectAutoscaleSettings (a : documentdb.AutoscaleSettings) : value :=
  Struct [("MaxThroughput", ofInt (documentdb.MaxThroughput a))].

Definition reflectOptions (o : documentdb.MongoDBCollectionGetPropertiesOptions) : value :=
  Struct [("Throughput", ofInt (documentdb.Throughput o));
          ("AutoscaleSettings",
           ofPointer reflectAutoscaleSettings (documentdb.AutoscaleSettings_ o))].

Definition reflectResource (r : documentdb.MongoDBCollectionGetPropertiesResource) : value :=
  Struct [("ID", ofString (documentdb.ResourceID r));
          ("AnalyticalStorageTTL", ofInt (documentdb.AnalyticalStorageTTL r));
          ("Rid", ofString (documentdb.Rid r));
          ("Ts", ofInt (documentdb.Ts r));
          ("Etag", ofString (documentdb.Etag r))].

Definition reflectProperties (p : documentdb.MongoDBCollectionGetProperties) : value :=
  Struct [("Resource", ofPointer reflectResource (documentdb.Resource p));
          ("Options", ofPointer reflectOptions (documentdb.Options p))].

Definition reflectMongoCollection (mc : documentdb.MongoDBCollectionGetResults) : value :=
  Struct [("MongoDBCollectionGetProperties",
           ofPointer reflectProperties (documentdb.Properties mc));
          ("ID", ofString (documentdb.ID mc));
          ("Name", ofString (documentdb.Name mc));
          ("Type", ofString (documentdb.Type_ mc));
          ("Location", ofString (documentdb.Location mc));
          ("Tags", StrMap (documentdb.Tags mc))].

Definition reflectInfo (i : mongoCollectionInfo) : value :=
  Struct [("MongoCollection", reflectMongoCollection (MongoCollection i));
          ("Account", ofString (Account i));
          ("Database", ofString (Database i));
          ("Name", ofString (Name i));
          ("ResourceGroup", ofString (ResourceGroup i));
          ("Location", ofString (Location i))].

Module transform.

Record TransformData := {
  Value : value;
  HydrateItem : value;
  ColumnName : string
}.

Definition TransformFunc : Type := TransformData -> value + error.

Definition ColumnTransforms : Type := list TransformFunc.

Definition fieldOf (name : string) (v : value) : value :=
  match v with
  | Struct fields =>
      match List.find (fun f => String.eqb (fst f) name) fields with
      | Some f => snd f
      | None => Nil
      end
  | _ => Nil
  end.

(** [FieldValue]: walk the dot-separated path from the hydrate item. *)
Definition FieldValue (path : string) : TransformFunc :=
  fun d => inl (foldl (fun v name => fieldOf name v) (HydrateItem d)
                      (strings.Split path ".")).

Definition FromField (path : string) : ColumnTransforms := [FieldValue path].

(** [t.Transform(f)]: one more call at the end of the chain. *)
Definition Transform (t : ColumnTransforms) (f : TransformFunc) : ColumnTransforms :=
  (t ++ [f])%list.

(** [t.Execute]: every call gets the value of the call before it; the
    first error ends the chain. *)
Fixpoint Execute (t : ColumnTransforms) (d : TransformData) : value + error :=
  match t with
  | [] => inl (Value d)
  | f :: rest =>
      match f d with
      | inr err => inr err
      | inl v =>
          Execute rest {| Value := v;
                          HydrateItem := HydrateItem d;
                          ColumnName := ColumnName d |}
      end
  end.

End transform.

(** Modelled from the spec: the transform [toLower] lives in the plugin's
    utilities, which are not among the sources.  The spec describes it as
    the lower-casing scalar transform of the region-typed columns, with a
    defined null for a missing value: a string is lower-cased, [Nil] stays
    [Nil], and a value of another kind (none of the columns that use it reads
    one) is passed on. *)
Definition toLower : transform.TransformFunc :=
  fun d =>
    match transform.Value d with
    | Str s => inl (Str (strings.ToLower s))
    | v => inl v
    end.

(** Modelled from the spec: [isNotFoundError] lives in the plugin's utilities,
    which are not among the sources.  The spec has it classify a remote
    failure by its error code: the predicate holds of the errors whose code
    is one of the listed codes. *)
Definition isNotFoundError (notFoundErrors : list string) : error -> bool :=
  fun err => existsb (String.eqb (Code err)) notFoundErrors.

Module plugin.

Inductive ColumnType :=
| ColumnType_STRING
| ColumnType_INT
| ColumnType_JSON.

(** A column: its name, its type and its transform chain, if it declares
    one.  The description is documentation and is left out. *)
Record Column := {
  Name : string;
  Type_ : ColumnType;
  Transform : option transform.ColumnTransforms
}.

Record KeyColumn := {
  KeyName : string;
  Operators : list string;
  Require : string
}.

Definition SingleColumn (column : string) : list KeyColumn :=
  [{| KeyName := column; Operators := ["="]; Require := "required" |}].

Definition AllColumns (columns : list string) : list KeyColumn :=
  List.map (fun c => {| KeyName := c; Operators := ["="]; Require := "required" |})
           columns.

Record IgnoreConfig := { ShouldIgnoreErrorFunc : error -> bool }.

Definition HydrateFunc : Type := QueryData -> HydrateData -> prog hydrateResult.

Record GetConfig := {
  GetKeyColumns : list KeyColumn;
  GetHydrate : HydrateFunc;
  GetIgnoreConfig : option IgnoreConfig
}.

(** The parent hydrate function of the list configuration belongs to the
    account table; what it produces reaches the list function as [h.Item]. *)
Record ListConfig := {
  ListKeyColumns : list KeyColumn;
  ListHydrate : HydrateFunc
}.

Record Table := {
  TableName : string;
  Get : GetConfig;
  List : ListConfig;
  Columns : list Column
}.

(** Whether the table's get configuration ignores a hydrate error. *)
Definition shouldIgnoreError (t : Table) (err : error) : bool :=
  match GetIgnoreConfig (Get t) with
  | Some cfg => ShouldIgnoreErrorFunc cfg err
  | None => false
  end.

(** The SDK's get call: the hydrate function of the get configuration,
    with an ignored error turned into "no row, no error". *)
Definition callGet (t : Table) (d : QueryData) (h : HydrateData) : prog hydrateResult :=
  r ← GetHydrate (Get t) d h;
  match r with
  | (_, Some err) => if shouldIgnoreError t err then Ret (None, None) else Ret r
  | _ => Ret r
  end.

End plugin.

(** ** The table definition *)

Section Table.

(** What the table takes from files that are not among the sources:
    [transform.ToInt] of the SDK, [idToAkas] and [azureColumns] of the
    plugin's utilities, and the default transform the plugin gives a column
    that declares none. *)
Variables ToInt idToAkas : transform.TransformFunc.
Variable DefaultTransform : transform.ColumnTransforms.
Variable azureColumns : list plugin.Column -> list plugin.Column.

Definition column (name : string) (type : plugin.ColumnType)
    (t : option transform.ColumnTransforms) : plugin.Column :=
  {| plugin.Name := name; plugin.Type_ := type; plugin.Transform := t |}.

(** The columns the table declares, in the order of the source. *)
Definition mongoCollectionColumns : list plugin.Column :=
  [ column "name" plugin.ColumnType_STRING None;
    column "account_name" plugin.ColumnType_STRING
      (Some (transform.FromField "Account"));
    column "database_name" plugin.ColumnType_STRING
      (Some (transform.FromField "Database"));
    column "id" plugin.ColumnType_STRING
      (Some (transform.FromField "MongoCollection.ID"));
    column "type" plugin.ColumnType_STRING
      (Some (transform.FromField "MongoCollection.Type"));
    column "analytical_storage_ttl" plugin.ColumnType_INT
      (Some (transform.FromField
               "MongoCollection.MongoDBCollectionGetProperties.Resource.AnalyticalStorageTTL"));
    column "autoscale_settings_max_throughput" plugin.ColumnType_INT
      (Some (transform.FromField
               "MongoCollection.MongoDBCollectionGetProperties.Options.AutoscaleSettings.MaxThroughput"));
    column "collection_etag" plugin.ColumnType_STRING
      (Some (transform.FromField
               "MongoCollection.MongoDBCollectionGetProperties.Resource.Etag"));
    column "collection_id" plugin.ColumnType_STRING
      (Some (transform.FromField
               "MongoCollection.MongoDBCollectionGetProperties.Resource.ID"));
    column "collection_rid" plugin.ColumnType_STRING
      (Some (transform.FromField
               "MongoCollection.MongoDBCollectionGetProperties.Resource.Rid"));
    column "collection_ts" plugin.ColumnType_INT
      (Some (transform.Transform
               (transform.FromField
                  "MongoCollection.MongoDBCollectionGetProperties.Resource.Ts")
               ToInt));
    column "throughput" plugin.ColumnType_INT
      (Some (transform.FromField
               "MongoCollection.MongoDBCollectionGetProperties.Options.Throughput"));
    column "title" plugin.ColumnType_STRING
      (Some (transform.FromField "Name"));
    column "tags" plugin.ColumnType_JSON
      (Some (transform.FromField "MongoCollection.Tags"));
    column "akas" plugin.ColumnType_JSON
      (Some (transform.Transform (transform.FromField "MongoCollection.ID") idToAkas));
    column "region" plugin.ColumnType_STRING
      (Some (transform.Transform (transform.FromField "Location") toLower));
    column "resource_group" plugin.ColumnType_STRING
      (Some (transform.Transform (transform.FromField "ResourceGroup") toLower)) ].

Definition tableAzureCosmosDBMongoCollection : plugin.Table :=
  {| plugin.TableName := "azure_cosmosdb_mongo_collection";
     plugin.Get :=
       {| plugin.GetKeyColumns :=
            plugin.AllColumns ["account_name"; "name"; "resource_group"; "database_name"];
          plugin.GetHydrate := getCosmosDBMongoCollection;
          plugin.GetIgnoreConfig :=
            Some {| plugin.ShouldIgnoreErrorFunc :=
                      isNotFoundError ["ResourceNotFound"; "NotFound"] |} |};
     plugin.List :=
       {| plugin.ListKeyColumns := plugin.SingleColumn "database_name";
          plugin.ListHydrate := listCosmosDBMongoCollections |};
     plugin.Columns := azureColumns mongoCollectionColumns |}.

(** The value of one column for a hydrate item: the column's transform
    chain, or the default one, run from the item. *)
Definition columnValue (c : plugin.Column) (i : mongoCollectionInfo) : value + error :=
  transform.Execute
    (default DefaultTransform (plugin.Transform c))
    {| transform.Value := Nil;
       transform.HydrateItem := reflectInfo i;
       transform.ColumnName := plugin.Name c |}.

(** The value of the column the table declares under a name. *)
Definition declaredColumnValue (name : string) (i : mongoCollectionInfo)
    : option (value + error) :=
  c ← List.find (fun c => String.eqb (plugin.Name c) name) mongoCollectionColumns;
  Some (columnValue c i).

(** ** Hosts and inputs of the examples *)

Definition exampleSession : Session :=
  {| SubscriptionID := "sub1";
     ResourceManagerEndpoint := "https://management.azure.com/";
     SessionAuthorizer := TokenAuthorizer "token" |}.

Definition exampleCollection (id name location : string)
    : documentdb.MongoDBCollectionGetResults :=
  {| documentdb.Properties := None;
     documentdb.ID := Some id;
     documentdb.Name := Some name;
     documentdb.Type_ :=
       Some "Microsoft.DocumentDB/databaseAccounts/mongodbDatabases/collections";
     documentdb.Location := Some location;
     documentdb.Tags := ∅ |}.

Definition collectionIn (resourceGroup name : string)
    : documentdb.MongoDBCollectionGetResults :=
  exampleCollection
    ("/subscriptions/sub1/resourceGroups/" ++ resourceGroup
     ++ "/providers/Microsoft.DocumentDB/databaseAccounts/acct1/mongodbDatabases/db1/collections/"
     ++ name)
    name "West Europe".

(** A record whose identifier has a single segment. *)
Definition shortCollection : documentdb.MongoDBCollectionGetResults :=
  exampleCollection "c1" "c1" "West Europe".

Definition threeCollections : list documentdb.MongoDBCollectionGetResults :=
  [collectionIn "rg1" "c1"; collectionIn "rg1" "c2"; collectionIn "rg1" "c3"].

Definition remoteError (code : string) : error :=
  {| Code := code; Message := "the remote call failed" |}.

(** A host whose session opens, whose list call answers [items], whose get
    call answers [got], and whose rows remaining are [remaining]. *)
Definition exampleHost (items : list documentdb.MongoDBCollectionGetResults)
    (got : documentdb.MongoDBCollectionGetResults + error) (remaining : nat -> Z)
    : host :=
  {| hostGetNewSession := fun _ _ => inl exampleSession;
     hostListMongoDBCollections :=
       fun _ _ _ _ => inl {| documentdb.Value := Some items |};
     hostGetMongoDBCollection := fun _ _ _ _ _ => got;
     hostRowsRemaining := remaining |}.

(** No limit and no cancellation: the SDK answers [math.MaxInt32]. *)
Definition unlimited : nat -> Z := fun _ => 2147483647.

(** A limit of [limit] rows, none of them streamed before the invocation. *)
Definition limitedTo (limit : Z) : nat -> Z :=
  fun streamed => Z.max 0 (limit - Z.of_nat streamed).

(** A context that was cancelled before the invocation. *)
Definition cancelled : nat -> Z := fun _ => 0.

(** A host whose session does not open. *)
Definition noSessionHost : host :=
  {| hostGetNewSession := fun _ _ => inr (remoteError "AuthenticationFailed");
     hostListMongoDBCollections :=
       fun _ _ _ _ => inl {| documentdb.Value := Some threeCollections |};
     hostGetMongoDBCollection := fun _ _ _ _ _ => inl (collectionIn "rg1" "c1");
     hostRowsRemaining := fun _ => 100 |}.

(** A host whose list call fails. *)
Definition noListHost : host :=
  {| hostGetNewSession := fun _ _ => inl exampleSession;
     hostListMongoDBCollections := fun _ _ _ _ => inr (remoteError "InternalServerError");
     hostGetMongoDBCollection := fun _ _ _ _ _ => inl (collectionIn "rg1" "c1");
     hostRowsRemaining := fun _ => 100 |}.

Definition exampleClient : documentdb.MongoDBResourcesClient :=
  {| documentdb.BaseURI := "https://management.azure.com/";
     documentdb.ClientSubscriptionID := "sub1";
     documentdb.ClientAuthorizer := TokenAuthorizer "token" |}.

Definition exampleAccount : databaseAccountInfo :=
  {| AccountName := Some "acct1"; AccountResourceGroup := Some "parent-rg" |}.

Definition exampleParent : HydrateData := {| Item := AccountItem exampleAccount |}.

Definition listQuery (databaseName : string) : QueryData :=
  {| EqualsQuals := {[ "database_name" := StringValue databaseName ]} |}.

Definition getQuery (accountName resourceGroup databaseName name : string) : QueryData :=
  {| EqualsQuals :=
       <[ "account_name" := StringValue accountName ]>
       (<[ "resource_group" := StringValue resourceGroup ]>
        (<[ "database_name" := StringValue databaseName ]>
         {[ "name" := StringValue name ]})) |}.

Definition passValue : transform.TransformFunc := fun d => inl (transform.Value d).

Definition noColumns (columns : list plugin.Column) : list plugin.Column := columns.

(** ** Observations on traces and rows *)

(** The answers of [d.RowsRemaining(ctx)] in a trace, in order. *)
Definition polledRemaining (ev : event) : option Z :=
  match ev with
  | EvRowsRemaining remaining => Some remaining
  | _ => None
  end.

Definition polls (t : list event) : list Z := omap polledRemaining t.

Definition isGetCall (ev : event) : bool :=
  match ev with
  | EvGetMongoDBCollection _ _ _ _ _ _ => true
  | _ => false
  end.

Definition isListCall (ev : event) : bool :=
  match ev with
  | EvListMongoDBCollections _ _ _ _ _ => true
  | _ => false
  end.

(** [row] is the row the list function builds for the item [mc]. *)
Definition streamedFrom (account : databaseAccountInfo) (databaseName : string)
    (row : mongoCollectionInfo) (mc : documentdb.MongoDBCollectionGetResults) : Prop :=
  exists rg, resourceGroupOf (documentdb.ID mc) = Some rg
             /\ row = streamedInfo account databaseName mc rg.

(** The item the get function returns for the record [result] and the
    values of the key columns. *)
Definition fetchedInfo (result : documentdb.MongoDBCollectionGetResults)
    (accountName databaseName resourceGroup : string) : mongoCollectionInfo :=
  {| MongoCollection := result;
     Account := Some accountName;
     Database := Some databaseName;
     Name := documentdb.Name result;
     ResourceGroup := Some resourceGroup;
     Location := documentdb.Location result |}.

(** Whether the byte [c] occurs in [s]. *)
Fixpoint hasByte (c : ascii) (s : string) : bool :=
  match s with
  | EmptyString => false
  | String a rest => (Ascii.eqb a c || hasByte c rest)%bool
  end.

(** How often the byte [c] occurs in [s]. *)
Fixpoint countByte (c : ascii) (s : string) : nat :=
  match s with
  | EmptyString => 0%nat
  | String a rest => ((if Ascii.eqb a c then 1 else 0) + countByte c rest)%nat
  end.

(** [p.f] through a pointer [p] that may be nil, as the SDK's reflection
    reads it: nil when [p] is nil. *)
Definition field {A B : Type} (f : A -> option B) (p : option A) : option B :=
  match p with
  | Some a => f a
  | None => None
  end.

(** ** Lower case, stated on its own

    What "lower-cased" and "differing in case only" mean, written from the
    two alphabets and not from the helpers of [strings.ToLower], to compare
    that function with. *)

Definition upperCaseLetters : string := "ABCDEFGHIJKLMNOPQRSTUVWXYZ".

Definition lowerCaseLetters : string := "abcdefghijklmnopqrstuvwxyz".

(** The byte at the position of [c] in [to], when [c] is a byte of [from];
    [c] itself otherwise. *)
Fixpoint letterAt (c : ascii) (from to : string) : ascii :=
  match from, to with
  | String f from', String t to' => if Ascii.eqb c f then t else letterAt c from' to'
  | _, _ => c
  end.

(** The lower-case form of a byte: for an upper-case letter the lower-case
    letter at its position in the alphabet, for any other byte the byte. *)
Definition lowerCaseOf (c : ascii) : ascii :=
  letterAt c upperCaseLetters lowerCaseLetters.

(** The lower-cased form of a string. *)
Fixpoint lowerCasedForm (s : string) : string :=
  match s with
  | EmptyString => EmptyString
  | String c rest => String (lowerCaseOf c) (lowerCasedForm rest)
  end.

(** A string of 7-bit bytes: no byte reaches [utf8.RuneSelf]. *)
Fixpoint isASCII (s : string) : bool :=
  match s with
  | EmptyString => true
  | String c rest => ((nat_of_ascii c <? 128)%nat && isASCII rest)%bool
  end.

(** Whether one of the 26 upper-case letters occurs in [s]. *)
Fixpoint hasUpperCaseLetter (s : string) : bool :=
  match s with
  | EmptyString => false
  | String c rest => (hasByte c upperCaseLetters || hasUpperCaseLetter rest)%bool
  end.




(** ** Strings *)

Example Split_resource_id :
  strings.Split "/subscriptions/s/resourceGroups/rg/providers/p" "/"
  = [""; "subscriptions"; "s"; "resourceGroups"; "rg"; "providers"; "p"].
Proof. reflexivity. Qed.

Example Split_no_separator : strings.Split "c1" "/" = ["c1"].
Proof. reflexivity. Qed.

Example Split_empty : strings.Split "" "/" = [""].
Proof. reflexivity. Qed.

Example Split_trailing : strings.Split "a/b/" "/" = ["a"; "b"; ""].
Proof. reflexivity. Qed.

Example ToLower_region : strings.ToLower "West Europe 2" = "west europe 2".
Proof. reflexivity. Qed.

Example GetStringValue_absent :
  GetStringValue (EqualsQuals (listQuery "db1") !! "name") = "".
Proof. reflexivity. Qed.

Lemma Split_nonempty (s : string) (sep : ascii) : strings.Split s sep <> [].
Proof.
  destruct s as [|c s]; simpl; [discriminate|].
  destruct (Ascii.eqb c sep); [discriminate|].
  destruct (strings.Split s sep); discriminate.
Qed.



Lemma isUpper_lowerByte (c : ascii) :
  strings.isUpper (strings.lowerByte c) = false.
Proof. destruct c as [[] [] [] [] [] [] [] []]; reflexivity. Qed.


Lemma every_byte (P : ascii -> bool) :
  forallb P (List.map ascii_of_nat (List.seq 0 256)) = true -> forall c, P c = true.
Proof.
  intros H c. rewrite forallb_forall in H. apply H.
  rewrite <- (ascii_nat_embedding c). apply in_map, in_seq.
  pose proof (nat_ascii_bounded c). lia.
Qed.

Lemma lowerByte_lowerCaseOf (c : ascii) : strings.lowerByte c = lowerCaseOf c.
Proof.
  apply Ascii.eqb_eq.
  apply (every_byte (fun c => Ascii.eqb (strings.lowerByte c) (lowerCaseOf c))).
  vm_compute. reflexivity.
Qed.


Lemma lowerByte_fixed (c : ascii) :
  Ascii.eqb (strings.lowerByte c) c = negb (hasByte c upperCaseLetters).
Proof.
  apply eqb_prop.
  apply (every_byte (fun c => Bool.eqb (Ascii.eqb (strings.lowerByte c) c)
                                       (negb (hasByte c upperCaseLetters)))).
  vm_compute. reflexivity.
Qed.




Lemma ToLower_lowerCasedForm (s : string) : strings.ToLower s = lowerCasedForm s.
Proof.
  induction s as [|c s IH]; simpl; [reflexivity|].
  now rewrite lowerByte_lowerCaseOf, IH.
Qed.



Lemma ToLower_fixed (s : string) :
  strings.ToLower s = s <-> hasUpperCaseLetter s = false.
Proof.
  induction s as [|c s IH]; cbn [strings.ToLower hasUpperCaseLetter]; [tauto|].
  pose proof (lowerByte_fixed c) as Hc. split.
  - intros [= H1 H2]. rewrite H1, Ascii.eqb_refl in Hc.
    apply IH in H2. destruct (hasByte c upperCaseLetters); [discriminate | exact H2].
  - intros H. apply orb_false_iff in H. destruct H as [H1 H2].
    rewrite H1 in Hc. apply Ascii.eqb_eq in Hc. apply IH in H2. now rewrite Hc, H2.
Qed.

(** ** Column values *)


Lemma resource_group_value (i : mongoCollectionInfo) :
  declaredColumnValue "resource_group" i
  = Some (inl (ofString (strings.ToLower <$> ResourceGroup i))).
Proof. destruct i as [mc a db n [rg|] loc]; reflexivity. Qed.

(** ** The loop of the list function *)

Lemma resourceGroupOf_None (id : option string) :
  resourceGroupOf id = None <->
  id = None \/ exists s, id = Some s /\ (length (strings.Split s "/") < 5)%nat.
Proof.
  unfold resourceGroupOf. destruct id as [s|]; simpl.
  - rewrite lookup_ge_None. split.
    + intros H. right. exists s. split; [reflexivity | lia].
    + intros [H | (s' & H & Hlen)]; [discriminate|].
      injection H as <-. lia.
  - split; [now left | reflexivity].
Qed.

Lemma wellFormed_segments (mc : documentdb.MongoDBCollectionGetResults) :
  wellFormed mc <->
  exists s, documentdb.ID mc = Some s /\ (5 <= length (strings.Split s "/"))%nat.
Proof.
  unfold wellFormed, resourceGroupOf.
  destruct (documentdb.ID mc) as [s|]; simpl.
  - rewrite lookup_lt_is_Some. split.
    + intros H. exists s. split; [reflexivity | lia].
    + intros (s' & [= <-] & H). lia.
  - split; [intros [x H]; discriminate | intros (s' & H & _); discriminate].
Qed.

Lemma range_cons_ok hst n account db err mc rest rg :
  resourceGroupOf (documentdb.ID mc) = Some rg ->
  runFrom hst n (rangeMongoCollections account db err (mc :: rest))
  = if hostRowsRemaining hst (S n) =? 0
    then (Returned (None, None),
          [EvStreamLeafListItem (streamedInfo account db mc rg);
           EvRowsRemaining (hostRowsRemaining hst (S n))])
    else let '(o, t) := runFrom hst (S n) (rangeMongoCollections account db err rest) in
         (o, EvStreamLeafListItem (streamedInfo account db mc rg)
             :: EvRowsRemaining (hostRowsRemaining hst (S n)) :: t).
Proof.
  unfold resourceGroupOf. intros H. simpl.
  destruct (documentdb.ID mc) as [id|]; simpl in *; [|discriminate].
  unfold index. rewrite H. simpl.
  destruct (hostRowsRemaining hst (S n) =? 0); simpl; [reflexivity|].
  destruct (runFrom hst (S n) _) as [o t]. reflexivity.
Qed.

Lemma range_cons_panic hst n account db err mc rest :
  resourceGroupOf (documentdb.ID mc) = None ->
  exists p, runFrom hst n (rangeMongoCollections account db err (mc :: rest))
            = (Panicked p, []).
Proof.
  unfold resourceGroupOf. intros H. simpl.
  destruct (documentdb.ID mc) as [id|]; simpl in *.
  - unfold index. rewrite H. simpl. eauto.
  - eauto.
Qed.

Lemma range_never_stopped items : forall hst n account db err,
  Forall wellFormed items ->
  (forall j, (1 <= j <= length items)%nat -> hostRowsRemaining hst (n + j) <> 0) ->
  exists t,
    runFrom hst n (rangeMongoCollections account db err items) = (Returned (None, err), t)
    /\ MongoCollection <$> rows t = items.
Proof.
  induction items as [|mc rest IH]; intros hst n account db err Hwf Hrr.
  - exists []. split; reflexivity.
  - inversion Hwf as [|? ? [rg Hrg] Hrest]; subst.
    rewrite (range_cons_ok _ _ _ _ _ _ _ _ Hrg).
    assert (H1 : hostRowsRemaining hst (S n) <> 0).
    { replace (S n) with (n + 1)%nat by lia. apply Hrr. simpl. lia. }
    apply Z.eqb_neq in H1. rewrite H1.
    destruct (IH hst (S n) account db err Hrest) as (t & Ht & Hrows).
    { intros j Hj. replace (S n + j)%nat with (n + S j)%nat by lia.
      apply Hrr. simpl. lia. }
    rewrite Ht. eexists. split; [reflexivity|].
    simpl. now rewrite <- Hrows.
Qed.

Lemma range_stopped items : forall k hst n account db err,
  (1 <= k <= length items)%nat ->
  Forall wellFormed (take k items) ->
  (forall j, (1 <= j < k)%nat -> hostRowsRemaining hst (n + j) <> 0) ->
  hostRowsRemaining hst (n + k) = 0 ->
  exists t,
    runFrom hst n (rangeMongoCollections account db err items) = (Returned (None, None), t)
    /\ MongoCollection <$> rows t = take k items
    /\ last t = Some (EvRowsRemaining 0).
Proof.
  induction items as [|mc rest IH]; intros k hst n account db err Hk Hwf Hrr Hstop.
  - simpl in Hk. lia.
  - destruct k as [|k]; [lia|]. simpl in Hwf, Hk.
    inversion Hwf as [|? ? [rg Hrg] Hrest]; subst.
    rewrite (range_cons_ok _ _ _ _ _ _ _ _ Hrg).
    destruct k as [|k].
    + replace (n + 1)%nat with (S n) in Hstop by lia.
      rewrite Hstop. simpl. eexists. split; [reflexivity|].
      split; [now rewrite take_0 | reflexivity].
    + assert (H1 : hostRowsRemaining hst (S n) <> 0).
      { replace (S n) with (n + 1)%nat by lia. apply Hrr. lia. }
      apply Z.eqb_neq in H1. rewrite H1.
      destruct (IH (S k) hst (S n) account db err) as (t & Ht & Hrows & Hlast).
      { lia. }
      { exact Hrest. }
      { intros j Hj. replace (S n + j)%nat with (n + S j)%nat by lia. apply Hrr. lia. }
      { replace (S n + S k)%nat with (n + S (S k))%nat by lia. exact Hstop. }
      rewrite Ht. eexists. split; [reflexivity|]. split.
      * simpl. simpl in Hrows. now rewrite <- Hrows.
      * destruct t as [|ev t]; [discriminate|]. exact Hlast.
Qed.

Lemma range_first_row hst n account db err mc rest :
  wellFormed mc ->
  exists o t row,
    runFrom hst n (rangeMongoCollections account db err (mc :: rest))
    = (o, EvStreamLeafListItem row :: t)
    /\ MongoCollection row = mc.
Proof.
  intros [rg Hrg]. rewrite (range_cons_ok _ _ _ _ _ _ _ _ Hrg).
  destruct (hostRowsRemaining hst (S n) =? 0).
  - do 3 eexists. split; reflexivity.
  - destruct (runFrom hst (S n) _) as [o t]. do 3 eexists. split; reflexivity.
Qed.

Lemma range_rows_derived items : forall hst n account db err row,
  In row (rows (runFrom hst n (rangeMongoCollections account db err items)).2) ->
  exists rg,
    resourceGroupOf (documentdb.ID (MongoCollection row)) = Some rg
    /\ ResourceGroup row = Some rg.
Proof.
  induction items as [|mc rest IH]; intros hst n account db err row Hin.
  - destruct Hin.
  - destruct (resourceGroupOf (documentdb.ID mc)) as [rg|] eqn:Hrg.
    + rewrite (range_cons_ok _ _ _ _ _ _ _ _ Hrg) in Hin.
      destruct (hostRowsRemaining hst (S n) =? 0).
      * destruct Hin as [<- | []]. exists rg. split; [exact Hrg | reflexivity].
      * specialize (IH hst (S n) account db err row).
        destruct (runFrom hst (S n) _) as [o t].
        destruct Hin as [<- | Hin]; [| now apply IH].
        exists rg. split; [exact Hrg | reflexivity].
    + destruct (range_cons_panic hst n account db err mc rest Hrg) as [p Hp].
      rewrite Hp in Hin. destruct Hin.
Qed.

Lemma range_no_remote_call items : forall hst n account db err,
  remoteCalls (runFrom hst n (rangeMongoCollections account db err items)).2 = [].
Proof.
  induction items as [|mc rest IH]; intros hst n account db err; [reflexivity|].
  destruct (resourceGroupOf (documentdb.ID mc)) as [rg|] eqn:Hrg.
  - rewrite (range_cons_ok _ _ _ _ _ _ _ _ Hrg).
    destruct (hostRowsRemaining hst (S n) =? 0); [reflexivity|].
    specialize (IH hst (S n) account db err).
    destruct (runFrom hst (S n) _) as [o t]. exact IH.
  - destruct (range_cons_panic hst n account db err mc rest Hrg) as [p Hp].
    now rewrite Hp.
Qed.

Lemma range_panics good : forall hst n account db err bad rest,
  Forall wellFormed good ->
  ~ wellFormed bad ->
  (forall j, (1 <= j <= length good)%nat -> hostRowsRemaining hst (n + j) <> 0) ->
  exists p t,
    runFrom hst n (rangeMongoCollections account db err (good ++ bad :: rest))
    = (Panicked p, t)
    /\ MongoCollection <$> rows t = good.
Proof.
  induction good as [|mc good IH]; intros hst n account db err bad rest Hwf Hbad Hrr.
  - apply eq_None_not_Some in Hbad.
    destruct (range_cons_panic hst n account db err bad rest Hbad) as [p Hp].
    exists p, []. split; [exact Hp | reflexivity].
  - inversion Hwf as [|? ? [rg Hrg] Hgood]; subst.
    rewrite <- app_comm_cons, (range_cons_ok _ _ _ _ _ _ _ _ Hrg).
    assert (H1 : hostRowsRemaining hst (S n) <> 0).
    { replace (S n) with (n + 1)%nat by lia. apply Hrr. simpl. lia. }
    apply Z.eqb_neq in H1. rewrite H1.
    destruct (IH hst (S n) account db err bad rest Hgood Hbad) as (p & t & Ht & Hrows).
    { intros j Hj. replace (S n + j)%nat with (n + S j)%nat by lia.
      apply Hrr. simpl. lia. }
    rewrite Ht. do 2 eexists. split; [reflexivity|].
    simpl. now rewrite <- Hrows.
Qed.

Lemma range_total items : forall hst n account db err,
  Forall wellFormed items ->
  exists r t, runFrom hst n (rangeMongoCollections account db err items) = (Returned r, t).
Proof.
  induction items as [|mc rest IH]; intros hst n account db err Hwf.
  - do 2 eexists. reflexivity.
  - inversion Hwf as [|? ? [rg Hrg] Hrest]; subst.
    rewrite (range_cons_ok _ _ _ _ _ _ _ _ Hrg).
    destruct (hostRowsRemaining hst (S n) =? 0); [do 2 eexists; reflexivity|].
    destruct (IH hst (S n) account db err Hrest) as (r & t & Ht).
    rewrite Ht. do 2 eexists. reflexivity.
Qed.

(** ** The runs of the two hydrate functions *)

Lemma list_run hst d h :
  run hst (listCosmosDBMongoCollections d h) =
  match Item h with
  | OtherItem => (Panicked TypeAssertion, [])
  | AccountItem account =>
      let db := GetStringValue (EqualsQuals d !! "database_name") in
      if String.eqb db "" then (Returned (None, None), [])
      else
        let s := hostGetNewSession hst d "MANAGEMENT" in
        let opened := EvGetNewSession d "MANAGEMENT" s in
        match s with
        | inr err => (Returned (None, Some err), [opened])
        | inl session =>
            match AccountResourceGroup account, AccountName account with
            | Some rg, Some an =>
                let r := hostListMongoDBCollections hst (clientOf session) rg an db in
                let listed := EvListMongoDBCollections (clientOf session) rg an db r in
                match r with
                | inr err => (Returned (None, Some err), [opened; listed])
                | inl result =>
                    match documentdb.Value result with
                    | None => (Panicked NilDereference, [opened; listed])
                    | Some items =>
                        let '(o, t) :=
                          runFrom hst 0 (rangeMongoCollections account db None items) in
                        (o, opened :: listed :: t)
                    end
                end
            | _, _ => (Panicked NilDereference, [opened])
            end
        end
  end.
Proof.
  unfold run, listCosmosDBMongoCollections.
  destruct h as [[[[an|] [rg|]]|]]; simpl; try reflexivity;
    destruct (String.eqb _ _); simpl; try reflexivity;
    destruct (hostGetNewSession hst d "MANAGEMENT") as [s|err]; simpl; try reflexivity.
  destruct (hostListMongoDBCollections _ _ _ _ _) as [[[items|]]|err]; simpl; try reflexivity.
  destruct (runFrom _ _ _); reflexivity.
Qed.

Lemma get_run hst d h :
  run hst (getCosmosDBMongoCollection d h) =
  let name := GetStringValue (EqualsQuals d !! "name") in
  let resourceGroup := GetStringValue (EqualsQuals d !! "resource_group") in
  let accountName := GetStringValue (EqualsQuals d !! "account_name") in
  let databaseName := GetStringValue (EqualsQuals d !! "database_name") in
  let logged := EvLoggerTrace "getCosmosDBMongoCollection" in
  if ((String.length accountName <? 3)%nat || (String.length resourceGroup <? 1)%nat)%bool
  then (Returned (None, None), [logged])
  else
    let s := hostGetNewSession hst d "MANAGEMENT" in
    let opened := EvGetNewSession d "MANAGEMENT" s in
    match s with
    | inr err => (Returned (None, Some err), [logged; opened])
    | inl session =>
        let r := hostGetMongoDBCollection hst (clientOf session)
                   resourceGroup accountName databaseName name in
        let got := EvGetMongoDBCollection (clientOf session)
                     resourceGroup accountName databaseName name r in
        match r with
        | inr err => (Returned (None, Some err), [logged; opened; got])
        | inl result =>
            (Returned (Some {| MongoCollection := result;
                               Account := Some accountName;
                               Database := Some databaseName;
                               Name := documentdb.Name result;
                               ResourceGroup := Some resourceGroup;
                               Location := documentdb.Location result |}, None),
             [logged; opened; got])
        end
    end.
Proof.
  unfold run, getCosmosDBMongoCollection. simpl.
  destruct (_ || _)%bool; simpl; try reflexivity.
  destruct (hostGetNewSession hst d "MANAGEMENT") as [s|err]; simpl; try reflexivity.
  destruct (hostGetMongoDBCollection _ _ _ _ _ _) as [result|err]; reflexivity.
Qed.

Lemma not_in_range_trace hst n account db err items ev :
  isRemoteCall ev = true ->
  ~ In ev (runFrom hst n (rangeMongoCollections account db err items)).2.
Proof.
  intros Hev Hin.
  assert (H : In ev (remoteCalls
                       (runFrom hst n (rangeMongoCollections account db err items)).2)).
  { apply filter_In. split; assumption. }
  rewrite range_no_remote_call in H. destruct H.
Qed.

(** A run in which the list call answered [items] is the session event, the
    list event, and the run of the loop over [items]. *)
Lemma list_run_listed hst d h o t c rg an dn items :
  run hst (listCosmosDBMongoCollections d h) = (o, t) ->
  In (EvListMongoDBCollections c rg an dn (inl {| documentdb.Value := Some items |})) t ->
  exists account db opened listed t',
    runFrom hst 0 (rangeMongoCollections account db None items) = (o, t')
    /\ t = opened :: listed :: t'
    /\ rows t = rows t'.
Proof.
  rewrite list_run. destruct (Item h) as [account|].
  2:{ intros [= <- <-] []. }
  cbv zeta. destruct (String.eqb _ _).
  { intros [= <- <-] []. }
  destruct (hostGetNewSession hst d "MANAGEMENT") as [s|e].
  2:{ intros [= <- <-] [Hin | []]. discriminate. }
  destruct (AccountResourceGroup account) as [rg'|].
  2:{ intros [= <- <-] [Hin | []]. discriminate. }
  destruct (AccountName account) as [an'|].
  2:{ intros [= <- <-] [Hin | []]. discriminate. }
  destruct (hostListMongoDBCollections hst _ _ _ _) as [[[items'|]]|e]; simpl.
  - destruct (runFrom hst 0 _) as [o' t'] eqn:Hloop.
    intros [= <- <-] [Hin | [Hin | Hin]].
    + discriminate.
    + injection Hin as <- <- <- <- <-.
      do 5 eexists. split; [exact Hloop|]. split; reflexivity.
    + exfalso. eapply (not_in_range_trace hst 0); [|rewrite Hloop; exact Hin].
      reflexivity.
  - intros [= <- <-] [Hin | [Hin | []]]; discriminate.
  - intros [= <- <-] [Hin | [Hin | []]]; discriminate.
Qed.

(** The rows of any run of the list function are rows of its loop. *)
Lemma list_run_rows hst d h :
  rows (run hst (listCosmosDBMongoCollections d h)).2 = []
  \/ exists account db items,
       rows (run hst (listCosmosDBMongoCollections d h)).2
       = rows (runFrom hst 0 (rangeMongoCollections account db None items)).2.
Proof.
  rewrite list_run. destruct (Item h) as [account|]; [|now left].
  cbv zeta. destruct (String.eqb _ _); [now left|].
  destruct (hostGetNewSession hst d "MANAGEMENT") as [s|e]; [|now left].
  destruct (AccountResourceGroup account) as [rg'|]; [|now left].
  destruct (AccountName account) as [an'|]; [|now left].
  destruct (hostListMongoDBCollections hst _ _ _ _) as [[[items'|]]|e]; simpl;
    [|now left|now left].
  right. exists account, (GetStringValue (EqualsQuals d !! "database_name")), items'.
  destruct (runFrom hst 0 _) as [o' t']. reflexivity.
Qed.

(** The run of a sequence: the run of its first part, then, when that
    returns, the run of the rest after the rows the first part streamed. *)
Lemma runFrom_bind {A B : Type} hst (m : prog A) (f : A -> prog B) : forall n,
  runFrom hst n (bind m f) =
  match runFrom hst n m with
  | (Returned a, t) =>
      let '(o, t') := runFrom hst (n + length (rows t)) (f a) in (o, (t ++ t')%list)
  | (Panicked p, t) => (Panicked p, t)
  end.
Proof.
  induction m as [a|p|X e k IH]; intros n; simpl.
  - rewrite Nat.add_0_r. destruct (runFrom hst n (f a)). reflexivity.
  - reflexivity.
  - destruct (handle hst n e) as [[x n'] ev] eqn:Hh.
    rewrite IH.
    assert (Hn : forall t, (n' + length (rows t) = n + length (rows (ev :: t)))%nat).
    { intros t. destruct e; simpl in Hh; injection Hh as <- <- <-; simpl; lia. }
    destruct (runFrom hst n' (k x)) as [[a|p] t]; [|reflexivity].
    rewrite Hn. destruct (runFrom hst _ (f a)). reflexivity.
Qed.

(** ** The list function: rows and the stop signal *)

(** C1, as the code has it: when the list call answered [items] and every
    item that is reached has a non-nil identifier of at least five segments,
    the list function streams one row per item, in order, and returns no
    error if the rows remaining never reach 0; and if they reach 0 for the
    first time after the k-th row, it streams the rows of the first k items
    only and returns no error right after that poll. *)
Theorem enumerator_streams_until_stopped hst d h o t c rg an dn items :
  run hst (listCosmosDBMongoCollections d h) = (o, t) ->
  In (EvListMongoDBCollections c rg an dn (inl {| documentdb.Value := Some items |})) t ->
  (Forall wellFormed items ->
   (forall j, (1 <= j <= length items)%nat -> hostRowsRemaining hst j <> 0) ->
   o = Returned (None, None)
   /\ length (rows t) = length items
   /\ MongoCollection <$> rows t = items)
  /\ (forall k,
        (1 <= k <= length items)%nat ->
        Forall wellFormed (take k items) ->
        (forall j, (1 <= j < k)%nat -> hostRowsRemaining hst j <> 0) ->
        hostRowsRemaining hst k = 0 ->
        o = Returned (None, None)
        /\ length (rows t) = k
        /\ MongoCollection <$> rows t = take k items
        /\ last t = Some (EvRowsRemaining 0)).
Proof.
  intros Hrun Hin.
  destruct (list_run_listed _ _ _ _ _ _ _ _ _ _ Hrun Hin)
    as (account & db & opened & listed & t' & Hloop & -> & Hrows).
  rewrite Hrows. split.
  - intros Hwf Hrr.
    destruct (range_never_stopped items hst 0%nat account db None Hwf Hrr)
      as (t0 & Ht0 & Hitems).
    rewrite Hloop in Ht0. injection Ht0 as -> ->.
    split; [reflexivity|]. split; [|exact Hitems].
    assert (Hlen : length (MongoCollection <$> rows t0) = length items)
      by now rewrite Hitems.
    now rewrite length_fmap in Hlen.
  - intros k Hk Hwf Hrr Hstop.
    destruct (range_stopped items k hst 0%nat account db None Hk Hwf Hrr Hstop)
      as (t0 & Ht0 & Hitems & Hlast).
    rewrite Hloop in Ht0. injection Ht0 as -> ->.
    split; [reflexivity|]. split; [|split; [exact Hitems|]].
    + assert (Hlen : length (MongoCollection <$> rows t0) = length (take k items))
        by now rewrite Hitems.
      rewrite length_fmap, length_take in Hlen. lia.
    + destruct t0 as [|ev t0]; [discriminate|]. exact Hlast.
Qed.

(** C9, as the code has it: the rows remaining are polled only after a row
    was streamed, so when the list call answered at least one item and the
    first item has a non-nil identifier of at least five segments, its row
    is streamed whatever the rows remaining are, also when they are 0 from
    the start. *)
Theorem first_row_precedes_stop_check hst d h o t c rg an dn first rest :
  run hst (listCosmosDBMongoCollections d h) = (o, t) ->
  In (EvListMongoDBCollections c rg an dn
        (inl {| documentdb.Value := Some (first :: rest) |})) t ->
  wellFormed first ->
  exists row, rows t !! 0%nat = Some row /\ MongoCollection row = first.
Proof.
  intros Hrun Hin Hwf.
  destruct (list_run_listed _ _ _ _ _ _ _ _ _ _ Hrun Hin)
    as (account & db & opened & listed & t' & Hloop & -> & Hrows).
  destruct (range_first_row hst 0%nat account db None first rest Hwf)
    as (o' & t0 & row & Hfirst & Hrow).
  rewrite Hloop in Hfirst. injection Hfirst as -> ->.
  exists row. rewrite Hrows. split; [reflexivity | exact Hrow].
Qed.

(** C2, as the code has it: every row the list function streams carries, as
    its resource group, the segment at index 4 of the slash-separated
    identifier of its own item, whatever the resource group of the parent
    account is, and the [resource_group] column of the row is the lower-cased
    form of that segment. *)
Theorem resource_group_of_streamed_row hst d h o t row :
  run hst (listCosmosDBMongoCollections d h) = (o, t) ->
  In row (rows t) ->
  exists id segment,
    documentdb.ID (MongoCollection row) = Some id
    /\ strings.Split id "/" !! 4%nat = Some segment
    /\ ResourceGroup row = Some segment
    /\ declaredColumnValue "resource_group" row
       = Some (inl (Str (strings.ToLower segment))).
Proof.
  intros Hrun Hin.
  assert (Hderived : exists rg',
             resourceGroupOf (documentdb.ID (MongoCollection row)) = Some rg'
             /\ ResourceGroup row = Some rg').
  { destruct (list_run_rows hst d h) as [Hnone | (account & db & items & Hrows)];
      rewrite Hrun in *; simpl in *.
    - rewrite Hnone in Hin. destruct Hin.
    - rewrite Hrows in Hin. eapply range_rows_derived. exact Hin. }
  destruct Hderived as (segment & Hseg & Hrg).
  unfold resourceGroupOf in Hseg.
  destruct (documentdb.ID (MongoCollection row)) as [id|]; [|discriminate].
  exists id, segment. repeat split; try assumption.
  rewrite resource_group_value, Hrg. reflexivity.
Qed.

(** C3: with an empty [database_name] qualifier the list function returns
    nil and no error for every account, and makes no call at all: no
    session, no remote call, no row. *)
Theorem empty_database_name_short_circuits hst d account :
  GetStringValue (EqualsQuals d !! "database_name") = "" ->
  run hst (listCosmosDBMongoCollections d {| Item := AccountItem account |})
  = (Returned (None, None), []).
Proof. intros Hdb. rewrite list_run. simpl. now rewrite Hdb. Qed.

(** C6: when the database name is not empty and the session does not open,
    or the list call fails, the list function returns that error and no row
    was streamed. *)
Theorem enumerator_failure_is_returned hst d h o t err :
  run hst (listCosmosDBMongoCollections d h) = (o, t) ->
  GetStringValue (EqualsQuals d !! "database_name") <> "" ->
  (exists d' audience, In (EvGetNewSession d' audience (inr err)) t)
  \/ (exists c rg an dn, In (EvListMongoDBCollections c rg an dn (inr err)) t) ->
  o = Returned (None, Some err) /\ rows t = [].
Proof.
  intros Hrun Hdb Hfail.
  assert (Hin : exists ev, In ev t /\ isRemoteCall ev = true /\
                  (ev = EvGetNewSession
                          match ev with EvGetNewSession d' _ _ => d' | _ => d end
                          match ev with EvGetNewSession _ a _ => a | _ => "" end
                          (inr err)
                   \/ exists c rg an dn, ev = EvListMongoDBCollections c rg an dn (inr err))).
  { destruct Hfail as [(d' & a & H) | (c & rg & an & dn & H)];
      eexists; (split; [exact H|]); (split; [reflexivity|]);
      [left; reflexivity | right; eauto]. }
  clear Hfail. destruct Hin as (ev & Hin & Hremote & Hev).
  rewrite list_run in Hrun. destruct (Item h) as [account|].
  2:{ injection Hrun as <- <-. destruct Hin. }
  cbv zeta in Hrun. destruct (String.eqb _ _).
  { injection Hrun as <- <-. destruct Hin. }
  destruct (hostGetNewSession hst d "MANAGEMENT") as [s|e].
  2:{ injection Hrun as <- <-. destruct Hin as [<- | []].
      destruct Hev as [Hev | (c & rg & an & dn & Hev)]; [|discriminate].
      injection Hev as ->. split; reflexivity. }
  destruct (AccountResourceGroup account) as [rg'|].
  2:{ injection Hrun as <- <-. destruct Hin as [<- | []].
      destruct Hev as [Hev | (c & rg & an & dn & Hev)]; discriminate. }
  destruct (AccountName account) as [an'|].
  2:{ injection Hrun as <- <-. destruct Hin as [<- | []].
      destruct Hev as [Hev | (c & rg & an & dn & Hev)]; discriminate. }
  destruct (hostListMongoDBCollections hst _ _ _ _) as [[[items'|]]|e]; simpl in Hrun.
  - destruct (runFrom hst 0 _) as [o' t'] eqn:Hloop. injection Hrun as <- <-.
    destruct Hin as [<- | [<- | Hin]].
    + destruct Hev as [Hev | (c & rg & an & dn & Hev)]; discriminate.
    + destruct Hev as [Hev | (c & rg & an & dn & Hev)]; discriminate.
    + exfalso. eapply (not_in_range_trace hst 0); [exact Hremote|].
      rewrite Hloop. exact Hin.
  - injection Hrun as <- <-. destruct Hin as [<- | [<- | []]];
      destruct Hev as [Hev | (c & rg & an & dn & Hev)]; discriminate.
  - injection Hrun as <- <-. destruct Hin as [<- | [<- | []]];
      destruct Hev as [Hev | (c & rg & an & dn & Hev)]; try discriminate.
    injection Hev as _ _ _ _ ->. split; reflexivity.
Qed.

(** C8: the derivation of the resource group, [strings.Split(id, "/")[4]]
    on the dereferenced identifier, panics exactly for a nil identifier and
    for an identifier of fewer than five segments.  So the list function
    does not panic in its loop when every item the list call answered is
    well-formed, and it panics, after the rows of the items before it, at the
    first item that is not, when the rows remaining let it get there. *)
Theorem resource_group_derivation_is_partial :
  (forall id,
     resourceGroupOf id = None <->
     id = None \/ exists s, id = Some s /\ (length (strings.Split s "/") < 5)%nat)
  /\ (forall hst d h o t c rg an dn items,
        run hst (listCosmosDBMongoCollections d h) = (o, t) ->
        In (EvListMongoDBCollections c rg an dn
              (inl {| documentdb.Value := Some items |})) t ->
        Forall wellFormed items ->
        exists r, o = Returned r)
  /\ (forall hst d h o t c rg an dn good bad rest,
        run hst (listCosmosDBMongoCollections d h) = (o, t) ->
        In (EvListMongoDBCollections c rg an dn
              (inl {| documentdb.Value := Some (good ++ bad :: rest)%list |})) t ->
        Forall wellFormed good ->
        ~ wellFormed bad ->
        (forall j, (1 <= j <= length good)%nat -> hostRowsRemaining hst j <> 0) ->
        exists p, o = Panicked p /\ MongoCollection <$> rows t = good).
Proof.
  split; [exact resourceGroupOf_None|]. split.
  - intros hst d h o t c rg an dn items Hrun Hin Hwf.
    destruct (list_run_listed _ _ _ _ _ _ _ _ _ _ Hrun Hin)
      as (account & db & opened & listed & t' & Hloop & -> & Hrows).
    destruct (range_total items hst 0%nat account db None Hwf) as (r & t0 & Ht0).
    rewrite Hloop in Ht0. injection Ht0 as -> ->. eauto.
  - intros hst d h o t c rg an dn good bad rest Hrun Hin Hwf Hbad Hrr.
    destruct (list_run_listed _ _ _ _ _ _ _ _ _ _ Hrun Hin)
      as (account & db & opened & listed & t' & Hloop & -> & Hrows).
    destruct (range_panics good hst 0%nat account db None bad rest Hwf Hbad Hrr)
      as (p & t0 & Ht0 & Hgood).
    rewrite Hloop in Ht0. injection Ht0 as -> ->.
    exists p. rewrite Hrows. split; [reflexivity | exact Hgood].
Qed.

(** ** The get function *)

(** C4: when the account name is shorter than 3 bytes or the resource group
    is empty, the get function returns nil and no error after its log line:
    it opens no session and issues no get call. *)
Theorem malformed_lookup_key_short_circuits hst d h :
  (String.length (GetStringValue (EqualsQuals d !! "account_name")) < 3)%nat
  \/ GetStringValue (EqualsQuals d !! "resource_group") = "" ->
  run hst (getCosmosDBMongoCollection d h)
  = (Returned (None, None), [EvLoggerTrace "getCosmosDBMongoCollection"])
  /\ remoteCalls (run hst (getCosmosDBMongoCollection d h)).2 = [].
Proof.
  intros Hkey.
  assert (Hrun : run hst (getCosmosDBMongoCollection d h)
                 = (Returned (None, None), [EvLoggerTrace "getCosmosDBMongoCollection"])).
  { rewrite get_run. cbv zeta.
    destruct Hkey as [Hlen | ->].
    - apply Nat.ltb_lt in Hlen. now rewrite Hlen.
    - now rewrite orb_true_r. }
  rewrite Hrun. split; reflexivity.
Qed.

(** C10, as the code has it: the local check of the get function reads the
    account name and the resource group only.  For an account name of at
    least 3 bytes and a non-empty resource group the function goes on to open
    the session, and once the session is open it issues the get call with the
    four key values as they are, whatever the database name and the
    collection name are, the empty string included. *)
Theorem get_call_follows_open_session hst d h :
  (3 <= String.length (GetStringValue (EqualsQuals d !! "account_name")))%nat ->
  GetStringValue (EqualsQuals d !! "resource_group") <> "" ->
  let t := (run hst (getCosmosDBMongoCollection d h)).2 in
  In (EvGetNewSession d "MANAGEMENT" (hostGetNewSession hst d "MANAGEMENT")) t
  /\ (forall session,
        hostGetNewSession hst d "MANAGEMENT" = inl session ->
        exists r,
          t = [EvLoggerTrace "getCosmosDBMongoCollection";
               EvGetNewSession d "MANAGEMENT" (inl session);
               EvGetMongoDBCollection (clientOf session)
                 (GetStringValue (EqualsQuals d !! "resource_group"))
                 (GetStringValue (EqualsQuals d !! "account_name"))
                 (GetStringValue (EqualsQuals d !! "database_name"))
                 (GetStringValue (EqualsQuals d !! "name")) r]).
Proof.
  intros Hlen Hrg t. subst t. rewrite get_run. cbv zeta.
  assert (H1 : (String.length (GetStringValue (EqualsQuals d !! "account_name")) <? 3)%nat
               = false) by (apply Nat.ltb_ge; exact Hlen).
  assert (H2 : (String.length (GetStringValue (EqualsQuals d !! "resource_group")) <? 1)%nat
               = false).
  { apply Nat.ltb_ge.
    destruct (GetStringValue (EqualsQuals d !! "resource_group")); [congruence|].
    simpl. lia. }
  rewrite H1, H2. simpl.
  destruct (hostGetNewSession hst d "MANAGEMENT") as [s|e].
  - destruct (hostGetMongoDBCollection hst _ _ _ _ _) as [result|e] eqn:Hget; simpl.
    + split; [right; left; reflexivity|].
      intros session [= <-]. eexists. reflexivity.
    + split; [right; left; reflexivity|].
      intros session [= <-]. eexists. reflexivity.
  - split; [right; left; reflexivity|]. intros session [=].
Qed.

(** C7: when the get call fails, the get function returns the failure,
    whatever it is.  The ignore configuration of the table classifies it:
    the failures whose code is [ResourceNotFound] or [NotFound] are the ones
    to ignore, which leaves the get call of the table with no row and no
    error; every other failure stays the error of the call. *)
Theorem not_found_family_is_ignored hst d h o t c rg an dn cn err :
  run hst (getCosmosDBMongoCollection d h) = (o, t) ->
  In (EvGetMongoDBCollection c rg an dn cn (inr err)) t ->
  o = Returned (None, Some err)
  /\ (plugin.shouldIgnoreError tableAzureCosmosDBMongoCollection err = true <->
      Code err = "ResourceNotFound" \/ Code err = "NotFound")
  /\ (run hst (plugin.callGet tableAzureCosmosDBMongoCollection d h)).1
     = Returned (if plugin.shouldIgnoreError tableAzureCosmosDBMongoCollection err
                 then (None, None) else (None, Some err)).
Proof.
  intros Hrun Hin.
  assert (Ho : o = Returned (None, Some err)).
  { rewrite get_run in Hrun. cbv zeta in Hrun.
    destruct (_ || _)%bool.
    { injection Hrun as <- <-. destruct Hin as [Hin | []]. discriminate. }
    destruct (hostGetNewSession hst d "MANAGEMENT") as [s|e].
    2:{ injection Hrun as <- <-. destruct Hin as [Hin | [Hin | []]]; discriminate. }
    destruct (hostGetMongoDBCollection hst _ _ _ _ _) as [result|e];
      injection Hrun as <- <-;
      destruct Hin as [Hin | [Hin | [Hin | []]]]; try discriminate.
    injection Hin as _ _ _ _ _ ->. reflexivity. }
  subst o. split; [reflexivity|]. split.
  - unfold plugin.shouldIgnoreError, isNotFoundError. simpl.
    rewrite orb_false_r, orb_true_iff, !String.eqb_eq. reflexivity.
  - unfold plugin.callGet, run. simpl plugin.GetHydrate.
    change (mbind ?f ?m) with (bind m f).
    rewrite runFrom_bind. fold (run hst (getCosmosDBMongoCollection d h)).
    rewrite Hrun. simpl.
    destruct (plugin.shouldIgnoreError _ err); reflexivity.
Qed.

(** ** The region column *)


End Table.

(** ** The properties at the examples *)

(** Three items, a limit of two rows: two rows are streamed, and three
    without a limit. *)
Lemma enumerator_streams_until_stopped_witness :
  let d := listQuery "db1" in
  let stopped := run (exampleHost threeCollections (inl shortCollection) (limitedTo 2))
                     (listCosmosDBMongoCollections d exampleParent) in
  let complete := run (exampleHost threeCollections (inl shortCollection) unlimited)
                      (listCosmosDBMongoCollections d exampleParent) in
  (Forall wellFormed (take 2 threeCollections)
   /\ limitedTo 2 1 <> 0 /\ limitedTo 2 2 = 0
   /\ stopped.1 = Returned (None, None)
   /\ length (rows stopped.2) = 2%nat
   /\ MongoCollection <$> rows stopped.2 = take 2 threeCollections
   /\ last stopped.2 = Some (EvRowsRemaining 0))
  /\ (Forall wellFormed threeCollections
      /\ complete.1 = Returned (None, None)
      /\ length (rows complete.2) = length threeCollections
      /\ MongoCollection <$> rows complete.2 = threeCollections).
Proof.
  intros d stopped complete.
  assert (Hwf : Forall wellFormed threeCollections).
  { repeat (constructor; [eexists; vm_compute; reflexivity|]). constructor. }
  split.
  - split; [apply Forall_take; exact Hwf|].
    split; [vm_compute; discriminate|]. split; [reflexivity|].
    apply (proj2 (enumerator_streams_until_stopped
                    (exampleHost threeCollections (inl shortCollection) (limitedTo 2))
                    d exampleParent stopped.1 stopped.2
                    exampleClient "parent-rg" "acct1" "db1" threeCollections
                    (surjective_pairing stopped)
                    ltac:(vm_compute; right; left; reflexivity)) 2%nat).
    + simpl. lia.
    + apply Forall_take; exact Hwf.
    + intros j Hj. assert (j = 1%nat) as -> by lia. vm_compute. discriminate.
    + reflexivity.
  - split; [exact Hwf|].
    apply (proj1 (enumerator_streams_until_stopped
                    (exampleHost threeCollections (inl shortCollection) unlimited)
                    d exampleParent complete.1 complete.2
                    exampleClient "parent-rg" "acct1" "db1" threeCollections
                    (surjective_pairing complete)
                    ltac:(vm_compute; right; left; reflexivity))).
    + exact Hwf.
    + intros j Hj. vm_compute. discriminate.
Defined.

(** One item whose identifier has a single segment: the list call answered
    one item and the rows remaining never reach 0, yet no row is streamed;
    the index expression panics. *)
Lemma enumerator_streams_until_stopped_counterexample :
  let hst := exampleHost [shortCollection] (inl shortCollection) unlimited in
  let r := run hst (listCosmosDBMongoCollections (listQuery "db1") exampleParent) in
  In (EvListMongoDBCollections exampleClient "parent-rg" "acct1" "db1"
        (inl {| documentdb.Value := Some [shortCollection] |})) r.2
  /\ (forall j, hostRowsRemaining hst j <> 0)
  /\ r.1 = Panicked (IndexOutOfRange 4 1)
  /\ rows r.2 = []
  /\ length (rows r.2) <> length [shortCollection].
Proof.
  cbv zeta. split; [vm_compute; right; left; reflexivity|].
  split; [intros j; vm_compute; discriminate|].
  split; [reflexivity|]. split; [reflexivity|].
  vm_compute. discriminate.
Qed.

(** Rows remaining at 0 from the start: the row of the first item is
    streamed all the same. *)
Lemma first_row_precedes_stop_check_witness :
  let hst := exampleHost threeCollections (inl shortCollection) cancelled in
  let r := run hst (listCosmosDBMongoCollections (listQuery "db1") exampleParent) in
  hostRowsRemaining hst 0 = 0
  /\ wellFormed (collectionIn "rg1" "c1")
  /\ exists row, rows r.2 !! 0%nat = Some row
                 /\ MongoCollection row = collectionIn "rg1" "c1".
Proof.
  intros hst r. split; [reflexivity|].
  assert (Hwf : wellFormed (collectionIn "rg1" "c1"))
    by (eexists; vm_compute; reflexivity).
  split; [exact Hwf|].
  apply (first_row_precedes_stop_check hst (listQuery "db1") exampleParent r.1 r.2
           exampleClient "parent-rg" "acct1" "db1"
           (collectionIn "rg1" "c1") [collectionIn "rg1" "c2"; collectionIn "rg1" "c3"]
           (surjective_pairing r)
           ltac:(vm_compute; right; left; reflexivity)
           Hwf).
Defined.

(** The list call answered one item, its identifier has a single segment:
    no row is streamed. *)
Lemma first_row_precedes_stop_check_counterexample :
  let hst := exampleHost [shortCollection] (inl shortCollection) cancelled in
  let r := run hst (listCosmosDBMongoCollections (listQuery "db1") exampleParent) in
  In (EvListMongoDBCollections exampleClient "parent-rg" "acct1" "db1"
        (inl {| documentdb.Value := Some [shortCollection] |})) r.2
  /\ r.1 = Panicked (IndexOutOfRange 4 1)
  /\ rows r.2 = [].
Proof.
  cbv zeta. split; [vm_compute; right; left; reflexivity|].
  split; reflexivity.
Qed.

(** A collection of the resource group [MyRG] under an account of the
    resource group [parent-rg]. *)
Lemma resource_group_of_streamed_row_witness :
  let hst := exampleHost [collectionIn "MyRG" "c1"] (inl shortCollection) unlimited in
  let r := run hst (listCosmosDBMongoCollections (listQuery "db1") exampleParent) in
  let row := streamedInfo exampleAccount "db1" (collectionIn "MyRG" "c1") "MyRG" in
  In row (rows r.2)
  /\ AccountResourceGroup exampleAccount = Some "parent-rg"
  /\ exists id segment,
       documentdb.ID (MongoCollection row) = Some id
       /\ strings.Split id "/" !! 4%nat = Some segment
       /\ ResourceGroup row = Some segment
       /\ declaredColumnValue passValue passValue [] "resource_group" row
          = Some (inl (Str (strings.ToLower segment))).
Proof.
  intros hst r row.
  assert (Hin : In row (rows r.2)) by (vm_compute; left; reflexivity).
  split; [exact Hin|]. split; [reflexivity|].
  exact (resource_group_of_streamed_row passValue passValue []
           hst (listQuery "db1") exampleParent r.1 r.2 row
           (surjective_pairing r) Hin).
Defined.

(** The segment at index 4 is [MyRG], the column is [myrg]. *)
Lemma resource_group_of_streamed_row_counterexample :
  let hst := exampleHost [collectionIn "MyRG" "c1"] (inl shortCollection) unlimited in
  let r := run hst (listCosmosDBMongoCollections (listQuery "db1") exampleParent) in
  let row := streamedInfo exampleAccount "db1" (collectionIn "MyRG" "c1") "MyRG" in
  rows r.2 = [row]
  /\ (id ← documentdb.ID (MongoCollection row); strings.Split id "/" !! 4%nat)
     = Some "MyRG"
  /\ declaredColumnValue passValue passValue [] "resource_group" row
     = Some (inl (Str "myrg"))
  /\ declaredColumnValue passValue passValue [] "resource_group" row
     <> Some (inl (Str "MyRG")).
Proof.
  cbv zeta. split; [reflexivity|]. split; [reflexivity|].
  split; [reflexivity|]. vm_compute. discriminate.
Qed.

(** No [database_name] qualifier value: nothing happens. *)
Lemma empty_database_name_short_circuits_witness :
  GetStringValue (EqualsQuals (listQuery "") !! "database_name") = ""
  /\ run noListHost
         (listCosmosDBMongoCollections (listQuery "") {| Item := AccountItem exampleAccount |})
     = (Returned (None, None), []).
Proof.
  assert (H : GetStringValue (EqualsQuals (listQuery "") !! "database_name") = "")
    by reflexivity.
  split; [exact H|].
  exact (empty_database_name_short_circuits noListHost (listQuery "") exampleAccount H).
Defined.

(** A session that does not open, and a list call that fails. *)
Lemma enumerator_failure_is_returned_witness :
  let d := listQuery "db1" in
  let r1 := run noSessionHost (listCosmosDBMongoCollections d exampleParent) in
  let r2 := run noListHost (listCosmosDBMongoCollections d exampleParent) in
  GetStringValue (EqualsQuals d !! "database_name") <> ""
  /\ (r1.1 = Returned (None, Some (remoteError "AuthenticationFailed")) /\ rows r1.2 = [])
  /\ (r2.1 = Returned (None, Some (remoteError "InternalServerError")) /\ rows r2.2 = []).
Proof.
  intros d r1 r2.
  assert (Hdb : GetStringValue (EqualsQuals d !! "database_name") <> "")
    by (vm_compute; discriminate).
  split; [exact Hdb|]. split.
  - apply (enumerator_failure_is_returned noSessionHost d exampleParent r1.1 r1.2
             (remoteError "AuthenticationFailed") (surjective_pairing r1) Hdb).
    left. exists d, "MANAGEMENT". vm_compute. left. reflexivity.
  - apply (enumerator_failure_is_returned noListHost d exampleParent r2.1 r2.2
             (remoteError "InternalServerError") (surjective_pairing r2) Hdb).
    right. exists exampleClient, "parent-rg", "acct1", "db1".
    vm_compute. right. left. reflexivity.
Defined.

(** A well-formed list runs to its end; a list with an item of a single
    segment in second place panics after the first row. *)
Lemma resource_group_derivation_is_partial_witness :
  let d := listQuery "db1" in
  let r1 := run (exampleHost threeCollections (inl shortCollection) unlimited)
                (listCosmosDBMongoCollections d exampleParent) in
  let mixed := [collectionIn "rg1" "c1"; shortCollection; collectionIn "rg1" "c3"] in
  let r2 := run (exampleHost mixed (inl shortCollection) unlimited)
                (listCosmosDBMongoCollections d exampleParent) in
  Forall wellFormed threeCollections
  /\ ~ wellFormed shortCollection
  /\ (exists r, r1.1 = Returned r)
  /\ (exists p, r2.1 = Panicked p
                /\ MongoCollection <$> rows r2.2 = [collectionIn "rg1" "c1"]).
Proof.
  intros d r1 mixed r2.
  destruct resource_group_derivation_is_partial as (Hnone & Htotal & Hpanic).
  assert (Hwf : Forall wellFormed threeCollections).
  { repeat (constructor; [eexists; vm_compute; reflexivity|]). constructor. }
  assert (Hbad : ~ wellFormed shortCollection).
  { intros [rg Hrg]. vm_compute in Hrg. discriminate. }
  split; [exact Hwf|]. split; [exact Hbad|]. split.
  - apply (Htotal _ d exampleParent r1.1 r1.2 exampleClient "parent-rg" "acct1" "db1"
             threeCollections (surjective_pairing r1)
             ltac:(vm_compute; right; left; reflexivity) Hwf).
  - apply (Hpanic _ d exampleParent r2.1 r2.2 exampleClient "parent-rg" "acct1" "db1"
             [collectionIn "rg1" "c1"] shortCollection [collectionIn "rg1" "c3"]
             (surjective_pairing r2)
             ltac:(vm_compute; right; left; reflexivity)).
    + inversion Hwf; subst. constructor; [assumption | constructor].
    + exact Hbad.
    + intros j Hj. vm_compute. discriminate.
Defined.

(** The lookup key (account [ab], resource group [rg1], database [db1],
    collection [c1]): the account name has 2 bytes. *)
Lemma malformed_lookup_key_short_circuits_witness :
  let d := getQuery "ab" "rg1" "db1" "c1" in
  let hst := exampleHost [] (inl (collectionIn "rg1" "c1")) unlimited in
  ((String.length (GetStringValue (EqualsQuals d !! "account_name")) < 3)%nat
   \/ GetStringValue (EqualsQuals d !! "resource_group") = "")
  /\ run hst (getCosmosDBMongoCollection d exampleParent)
     = (Returned (None, None), [EvLoggerTrace "getCosmosDBMongoCollection"])
  /\ remoteCalls (run hst (getCosmosDBMongoCollection d exampleParent)).2 = [].
Proof.
  intros d hst.
  assert (H : (String.length (GetStringValue (EqualsQuals d !! "account_name")) < 3)%nat
              \/ GetStringValue (EqualsQuals d !! "resource_group") = "")
    by (left; vm_compute; lia).
  split; [exact H|].
  exact (malformed_lookup_key_short_circuits hst d exampleParent H).
Defined.

(** An open session, an empty database name and an empty collection name:
    the get call is issued with both. *)
Lemma get_call_follows_open_session_witness :
  let d := getQuery "acct1" "rg1" "" "" in
  let hst := exampleHost [] (inl (collectionIn "rg1" "c1")) unlimited in
  let t := (run hst (getCosmosDBMongoCollection d exampleParent)).2 in
  (3 <= String.length (GetStringValue (EqualsQuals d !! "account_name")))%nat
  /\ GetStringValue (EqualsQuals d !! "resource_group") <> ""
  /\ GetStringValue (EqualsQuals d !! "database_name") = ""
  /\ GetStringValue (EqualsQuals d !! "name") = ""
  /\ exists r,
       t = [EvLoggerTrace "getCosmosDBMongoCollection";
            EvGetNewSession d "MANAGEMENT" (inl exampleSession);
            EvGetMongoDBCollection (clientOf exampleSession)
              (GetStringValue (EqualsQuals d !! "resource_group"))
              (GetStringValue (EqualsQuals d !! "account_name"))
              (GetStringValue (EqualsQuals d !! "database_name"))
              (GetStringValue (EqualsQuals d !! "name")) r].
Proof.
  intros d hst t.
  assert (Hlen : (3 <= String.length (GetStringValue (EqualsQuals d !! "account_name")))%nat)
    by (vm_compute; lia).
  assert (Hrg : GetStringValue (EqualsQuals d !! "resource_group") <> "")
    by (vm_compute; discriminate).
  split; [exact Hlen|]. split; [exact Hrg|].
  split; [reflexivity|]. split; [reflexivity|].
  exact (proj2 (get_call_follows_open_session hst d exampleParent Hlen Hrg)
           exampleSession eq_refl).
Defined.

(** A lookup key that passes the local check, and a session that does not
    open: no get call is issued. *)
Lemma get_call_follows_open_session_counterexample :
  let d := getQuery "acct1" "rg1" "" "" in
  let r := run noSessionHost (getCosmosDBMongoCollection d exampleParent) in
  (3 <= String.length (GetStringValue (EqualsQuals d !! "account_name")))%nat
  /\ GetStringValue (EqualsQuals d !! "resource_group") <> ""
  /\ r.1 = Returned (None, Some (remoteError "AuthenticationFailed"))
  /\ r.2 = [EvLoggerTrace "getCosmosDBMongoCollection";
            EvGetNewSession d "MANAGEMENT" (inr (remoteError "AuthenticationFailed"))]
  /\ (forall c rg an dn cn res, ~ In (EvGetMongoDBCollection c rg an dn cn res) r.2).
Proof.
  cbv zeta. split; [vm_compute; lia|]. split; [vm_compute; discriminate|].
  split; [reflexivity|]. split; [reflexivity|].
  intros c rg an dn cn res Hin. vm_compute in Hin.
  destruct Hin as [H | [H | []]]; discriminate.
Qed.

(** A get call that fails with [ResourceNotFound], and one that fails with
    [InternalServerError]. *)
Lemma not_found_family_is_ignored_witness :
  let d := getQuery "acct1" "rg1" "db1" "c1" in
  let table := tableAzureCosmosDBMongoCollection passValue passValue noColumns in
  let absent := remoteError "ResourceNotFound" in
  let broken := remoteError "InternalServerError" in
  let h1 := exampleHost [] (inr absent) unlimited in
  let h2 := exampleHost [] (inr broken) unlimited in
  ((run h1 (getCosmosDBMongoCollection d exampleParent)).1 = Returned (None, Some absent)
   /\ plugin.shouldIgnoreError table absent = true
   /\ (run h1 (plugin.callGet table d exampleParent)).1 = Returned (None, None))
  /\ ((run h2 (getCosmosDBMongoCollection d exampleParent)).1 = Returned (None, Some broken)
      /\ plugin.shouldIgnoreError table broken = false
      /\ (run h2 (plugin.callGet table d exampleParent)).1 = Returned (None, Some broken)).
Proof.
  intros d table absent broken h1 h2. split.
  - destruct (not_found_family_is_ignored passValue passValue noColumns
                h1 d exampleParent _ _
                (clientOf exampleSession) "rg1" "acct1" "db1" "c1" absent
                (surjective_pairing _)
                ltac:(vm_compute; right; right; left; reflexivity))
      as (Ho & Hclass & Hcall).
    split; [exact Ho|]. split; [reflexivity|]. exact Hcall.
  - destruct (not_found_family_is_ignored passValue passValue noColumns
                h2 d exampleParent _ _
                (clientOf exampleSession) "rg1" "acct1" "db1" "c1" broken
                (surjective_pairing _)
                ltac:(vm_compute; right; right; left; reflexivity))
      as (Ho & Hclass & Hcall).
    split; [exact Ho|]. split; [reflexivity|]. exact Hcall.
Defined.


(** ** What the loop of the list function does in every run *)

(** The rows of the loop are the rows of a prefix of the items, in order. *)
Lemma range_rows_prefix items : forall hst n account db err,
  Forall2 (streamedFrom account db)
    (rows (runFrom hst n (rangeMongoCollections account db err items)).2)
    (take (length (rows (runFrom hst n (rangeMongoCollections account db err items)).2))
          items).
Proof.
  induction items as [|mc rest IH]; intros hst n account db err; [constructor|].
  destruct (resourceGroupOf (documentdb.ID mc)) as [rg|] eqn:Hrg.
  - rewrite (range_cons_ok _ _ _ _ _ _ _ _ Hrg).
    assert (Hmc : streamedFrom account db (streamedInfo account db mc rg) mc)
      by (exists rg; split; [exact Hrg | reflexivity]).
    destruct (hostRowsRemaining hst (S n) =? 0).
    + simpl. constructor; [exact Hmc|]. rewrite take_0. constructor.
    + specialize (IH hst (S n) account db err).
      destruct (runFrom hst (S n) _) as [o t]. simpl in *.
      constructor; [exact Hmc | exact IH].
  - destruct (range_cons_panic hst n account db err mc rest Hrg) as [p Hp].
    rewrite Hp. constructor.
Qed.

(** Every row is followed by one poll of the rows remaining, which gets the
    answer for the number of rows streamed so far. *)
Lemma range_polls items : forall hst n account db err,
  let t := (runFrom hst n (rangeMongoCollections account db err items)).2 in
  polls t = (fun j => hostRowsRemaining hst (n + S j)) <$> seq 0 (length (rows t)).
Proof.
  induction items as [|mc rest IH]; intros hst n account db err; [reflexivity|].
  cbv zeta.
  destruct (resourceGroupOf (documentdb.ID mc)) as [rg|] eqn:Hrg.
  - rewrite (range_cons_ok _ _ _ _ _ _ _ _ Hrg).
    destruct (hostRowsRemaining hst (S n) =? 0).
    + simpl. now rewrite Nat.add_1_r.
    + specialize (IH hst (S n) account db err). cbv zeta in IH.
      destruct (runFrom hst (S n) _) as [o t]. simpl in *.
      rewrite Nat.add_1_r. f_equal. rewrite IH, <- fmap_S_seq, <- list_fmap_compose.
      apply list_fmap_ext. intros i x _. simpl. f_equal. lia.
  - destruct (range_cons_panic hst n account db err mc rest Hrg) as [p Hp].
    now rewrite Hp.
Qed.

(** How the loop ends: after all items, or at the first answer 0, or at
    the first item without a resource group. *)
Lemma range_outcome items : forall hst n account db err o t,
  runFrom hst n (rangeMongoCollections account db err items) = (o, t) ->
  let k := length (rows t) in
  (forall j, (1 <= j < k)%nat -> hostRowsRemaining hst (n + j) <> 0)
  /\ ((o = Returned (None, err) /\ k = length items
       /\ (k = 0%nat \/ hostRowsRemaining hst (n + k) <> 0))
      \/ (o = Returned (None, None) /\ (1 <= k <= length items)%nat
          /\ hostRowsRemaining hst (n + k) = 0)
      \/ (exists mc, items !! k = Some mc
          /\ (k = 0%nat \/ hostRowsRemaining hst (n + k) <> 0)
          /\ ((documentdb.ID mc = None /\ o = Panicked NilDereference)
              \/ exists s, documentdb.ID mc = Some s
                           /\ (length (strings.Split s "/") < 5)%nat
                           /\ o = Panicked (IndexOutOfRange 4
                                              (length (strings.Split s "/")))))).
Proof.
  induction items as [|mc rest IH]; intros hst n account db err o t Hrun; cbv zeta.
  - injection Hrun as <- <-. simpl. split; [intros; lia|]. left. auto.
  - destruct (resourceGroupOf (documentdb.ID mc)) as [rg|] eqn:Hrg.
    + rewrite (range_cons_ok _ _ _ _ _ _ _ _ Hrg) in Hrun.
      destruct (Z.eqb_spec (hostRowsRemaining hst (S n)) 0) as [Hz|Hnz].
      * injection Hrun as <- <-. simpl. split; [intros; lia|].
        right. left. rewrite Nat.add_1_r. repeat split; [lia | lia | exact Hz].
      * destruct (runFrom hst (S n) _) as [o' t'] eqn:Hrest.
        injection Hrun as <- <-.
        destruct (IH hst (S n) account db err o' t' Hrest) as [Hbefore Hend].
        simpl. split.
        { intros j Hj. destruct j as [|[|j]]; [lia| |].
          - now rewrite Nat.add_1_r.
          - replace (n + S (S j))%nat with (S n + S j)%nat by lia.
            apply Hbefore. lia. }
        assert (Hk : forall k', k' = 0%nat \/ hostRowsRemaining hst (S n + k') <> 0 ->
                       hostRowsRemaining hst (n + S k') <> 0).
        { intros k' [-> | H].
          - now rewrite Nat.add_1_r.
          - now replace (n + S k')%nat with (S n + k')%nat by lia. }
        destruct Hend as [(-> & Hlen & Hlast) | [(-> & Hlen & Hlast) | (mc' & Hmc' & Hlast & Hp)]].
        { left. repeat split; [lia | right; now apply Hk]. }
        { right. left. repeat split; [lia | lia |].
          now replace (n + S (length (rows t')))%nat with (S n + length (rows t'))%nat by lia. }
        { right. right. exists mc'. split; [exact Hmc'|]. split; [right; now apply Hk|].
          exact Hp. }
    + assert (Hrun' := Hrun). simpl in Hrun'.
      unfold resourceGroupOf in Hrg.
      destruct (documentdb.ID mc) as [s|] eqn:Hid; simpl in *.
      * unfold index in Hrun'. rewrite Hrg in Hrun'. simpl in Hrun'.
        injection Hrun' as <- <-. simpl. split; [intros; lia|].
        right. right. exists mc. split; [reflexivity|]. split; [now left|].
        right. exists s. apply lookup_ge_None in Hrg.
        split; [exact Hid|]. split; [lia | reflexivity].
      * injection Hrun' as <- <-. simpl. split; [intros; lia|].
        right. right. exists mc. split; [reflexivity|]. split; [now left|].
        left. split; [exact Hid | reflexivity].
Qed.

(** ** What the list function does in every run *)

(** A run in which the list call answered [items]: the account, the
    session, what the call was given, and the run of the loop. *)
Lemma list_run_loop hst d h o t c rg an dn items :
  run hst (listCosmosDBMongoCollections d h) = (o, t) ->
  In (EvListMongoDBCollections c rg an dn (inl {| documentdb.Value := Some items |})) t ->
  exists account session t',
    Item h = AccountItem account
    /\ hostGetNewSession hst d "MANAGEMENT" = inl session
    /\ AccountResourceGroup account = Some rg
    /\ AccountName account = Some an
    /\ c = clientOf session
    /\ dn = GetStringValue (EqualsQuals d !! "database_name")
    /\ runFrom hst 0 (rangeMongoCollections account dn None items) = (o, t')
    /\ t = EvGetNewSession d "MANAGEMENT" (inl session)
           :: EvListMongoDBCollections c rg an dn
                (inl {| documentdb.Value := Some items |}) :: t'.
Proof.
  rewrite list_run. destruct (Item h) as [account|] eqn:Hitem.
  2:{ intros [= <- <-] []. }
  cbv zeta. destruct (String.eqb _ _).
  { intros [= <- <-] []. }
  destruct (hostGetNewSession hst d "MANAGEMENT") as [s|e] eqn:Hs.
  2:{ intros [= <- <-] [Hin | []]. discriminate. }
  destruct (AccountResourceGroup account) as [rg'|] eqn:Hrg.
  2:{ intros [= <- <-] [Hin | []]. discriminate. }
  destruct (AccountName account) as [an'|] eqn:Han.
  2:{ intros [= <- <-] [Hin | []]. discriminate. }
  destruct (hostListMongoDBCollections hst _ _ _ _) as [[[items'|]]|e]; simpl.
  - destruct (runFrom hst 0 _) as [o' t'] eqn:Hloop.
    intros [= <- <-] [Hin | [Hin | Hin]].
    + discriminate.
    + injection Hin as <- <- <- <- <-.
      exists account, s, t'. repeat split; try reflexivity; assumption.
    + exfalso. eapply (not_in_range_trace hst 0); [|rewrite Hloop; exact Hin].
      reflexivity.
  - intros [= <- <-] [Hin | [Hin | []]]; discriminate.
  - intros [= <- <-] [Hin | [Hin | []]]; discriminate.
Qed.

(** X1: the rows of a run are the rows of a prefix of the items the list call
    answered, in their order, each with the name of the account, the database
    name of the qualifier, and the name, the location and the resource group
    of its own item. *)
Theorem enumerator_rows_are_prefix hst d h o t c rg an dn items :
  run hst (listCosmosDBMongoCollections d h) = (o, t) ->
  In (EvListMongoDBCollections c rg an dn (inl {| documentdb.Value := Some items |})) t ->
  exists account,
    Item h = AccountItem account
    /\ (length (rows t) <= length items)%nat
    /\ Forall2 (streamedFrom account (GetStringValue (EqualsQuals d !! "database_name")))
         (rows t) (take (length (rows t)) items).
Proof.
  intros Hrun Hin.
  destruct (list_run_loop _ _ _ _ _ _ _ _ _ _ Hrun Hin)
    as (account & session & t' & Hitem & _ & _ & _ & _ & -> & Hloop & ->).
  exists account. split; [exact Hitem|].
  pose proof (range_rows_prefix items hst 0%nat account
                (GetStringValue (EqualsQuals d !! "database_name")) None) as Hprefix.
  rewrite Hloop in Hprefix. simpl in Hprefix.
  change (rows (_ :: _ :: t')) with (rows t').
  split; [|exact Hprefix].
  apply Forall2_length in Hprefix. rewrite length_take in Hprefix. lia.
Qed.

(** X2: in every run of the list function each streamed row is followed by one
    poll of the rows remaining, and there is no other poll: the polls are the
    answers after 1, 2, ... rows. *)
Theorem enumerator_polls_after_each_row hst d h :
  let t := (run hst (listCosmosDBMongoCollections d h)).2 in
  polls t = (fun j => hostRowsRemaining hst (S j)) <$> seq 0 (length (rows t)).
Proof.
  cbv zeta. rewrite list_run. destruct (Item h) as [account|]; [|reflexivity].
  cbv zeta. destruct (String.eqb _ _); [reflexivity|].
  destruct (hostGetNewSession hst d "MANAGEMENT") as [s|e]; [|reflexivity].
  destruct (AccountResourceGroup account) as [rg'|]; [|reflexivity].
  destruct (AccountName account) as [an'|]; [|reflexivity].
  destruct (hostListMongoDBCollections hst _ _ _ _) as [[[items'|]]|e]; simpl;
    [|reflexivity|reflexivity].
  pose proof (range_polls items' hst 0%nat account
                (GetStringValue (EqualsQuals d !! "database_name")) None) as Hpolls.
  cbv zeta in Hpolls. destruct (runFrom hst 0 _) as [o' t']. exact Hpolls.
Qed.

(** X3: when the list function returns after fewer rows than the list call
    answered items, it returns no error, it streamed at least one row, and
    the poll after its last row was the first to answer 0. *)
Theorem enumerator_stops_only_at_zero hst d h r t c rg an dn items :
  run hst (listCosmosDBMongoCollections d h) = (Returned r, t) ->
  In (EvListMongoDBCollections c rg an dn (inl {| documentdb.Value := Some items |})) t ->
  (length (rows t) < length items)%nat ->
  r = (None, None)
  /\ (1 <= length (rows t))%nat
  /\ hostRowsRemaining hst (length (rows t)) = 0
  /\ (forall j, (1 <= j < length (rows t))%nat -> hostRowsRemaining hst j <> 0).
Proof.
  intros Hrun Hin Hless.
  destruct (list_run_loop _ _ _ _ _ _ _ _ _ _ Hrun Hin)
    as (account & session & t' & _ & _ & _ & _ & _ & _ & Hloop & ->).
  change (rows (_ :: _ :: t')) with (rows t') in *.
  destruct (range_outcome _ _ _ _ _ _ _ _ Hloop) as [Hbefore Hend]. simpl in *.
  destruct Hend as [(_ & Hlen & _) | [(Ho & Hlen & Hz) | (mc & _ & _ & Hp)]].
  - lia.
  - injection Ho as ->. repeat split; [lia | exact Hz | exact Hbefore].
  - destruct Hp as [[_ Hp] | (s & _ & _ & Hp)]; discriminate.
Qed.

(** X4: when the list function panics after the list call answered [items], the
    item at the position of the next row is the one without a resource
    group: its identifier is nil, or has fewer than five segments. *)
Theorem enumerator_panic_names_the_item hst d h p t c rg an dn items :
  run hst (listCosmosDBMongoCollections d h) = (Panicked p, t) ->
  In (EvListMongoDBCollections c rg an dn (inl {| documentdb.Value := Some items |})) t ->
  exists mc,
    items !! length (rows t) = Some mc
    /\ ((documentdb.ID mc = None /\ p = NilDereference)
        \/ exists s, documentdb.ID mc = Some s
                     /\ (length (strings.Split s "/") < 5)%nat
                     /\ p = IndexOutOfRange 4 (length (strings.Split s "/"))).
Proof.
  intros Hrun Hin.
  destruct (list_run_loop _ _ _ _ _ _ _ _ _ _ Hrun Hin)
    as (account & session & t' & _ & _ & _ & _ & _ & _ & Hloop & ->).
  change (rows (_ :: _ :: t')) with (rows t').
  destruct (range_outcome _ _ _ _ _ _ _ _ Hloop) as [_ Hend]. simpl in Hend.
  destruct Hend as [(Ho & _) | [(Ho & _) | (mc & Hmc & _ & Hp)]]; try discriminate.
  exists mc. split; [exact Hmc|].
  destruct Hp as [[Hid [= ->]] | (s & Hid & Hlen & [= ->])].
  - left. split; [exact Hid | reflexivity].
  - right. exists s. repeat split; assumption.
Qed.

(** X5: the list function never returns an item, and when it returns an error
    no row was streamed: the error is the one of the session or of the list
    call, which is the last call of the run. *)
Theorem enumerator_error_means_no_rows hst d h v e t :
  run hst (listCosmosDBMongoCollections d h) = (Returned (v, e), t) ->
  v = None
  /\ (forall err, e = Some err ->
        rows t = []
        /\ (last t = Some (EvGetNewSession d "MANAGEMENT" (inr err))
            \/ exists c rg an dn,
                 last t = Some (EvListMongoDBCollections c rg an dn (inr err)))).
Proof.
  rewrite list_run. destruct (Item h) as [account|]; [|discriminate].
  cbv zeta. destruct (String.eqb _ _).
  { intros [= <- <- <-]. split; [reflexivity | discriminate]. }
  destruct (hostGetNewSession hst d "MANAGEMENT") as [s|e0].
  2:{ intros [= <- <- <-]. split; [reflexivity|].
      intros err [= <-]. split; [reflexivity | now left]. }
  destruct (AccountResourceGroup account) as [rg'|]; [|discriminate].
  destruct (AccountName account) as [an'|]; [|discriminate].
  destruct (hostListMongoDBCollections hst _ _ _ _) as [[[items'|]]|e0]; simpl.
  - destruct (runFrom hst 0 _) as [o' t'] eqn:Hloop. intros [= -> <-].
    destruct (range_outcome _ _ _ _ _ _ _ _ Hloop) as [_ Hend]. simpl in Hend.
    destruct Hend as [(Ho & _) | [(Ho & _) | (mc & _ & _ & Hp)]].
    + injection Ho as -> ->. split; [reflexivity | discriminate].
    + injection Ho as -> ->. split; [reflexivity | discriminate].
    + destruct Hp as [[_ Hp] | (s' & _ & _ & Hp)]; discriminate.
  - discriminate.
  - intros [= <- <- <-]. split; [reflexivity|].
    intros err [= <-]. split; [reflexivity|]. right. eauto.
Qed.

(** X6: the calls of a run of the list function: none, or the session alone,
    or the session and then one list call, which is given the client of the
    session, the resource group and the name of the account, and the database
    name of the qualifier.  It never issues a get call. *)
Theorem enumerator_call_discipline hst d h :
  let t := (run hst (listCosmosDBMongoCollections d h)).2 in
  List.filter isGetCall t = []
  /\ (remoteCalls t = []
      \/ (exists r, remoteCalls t = [EvGetNewSession d "MANAGEMENT" r])
      \/ (exists session account rg an r,
            Item h = AccountItem account
            /\ AccountResourceGroup account = Some rg
            /\ AccountName account = Some an
            /\ remoteCalls t
               = [EvGetNewSession d "MANAGEMENT" (inl session);
                  EvListMongoDBCollections (clientOf session) rg an
                    (GetStringValue (EqualsQuals d !! "database_name")) r])).
Proof.
  cbv zeta. rewrite list_run. destruct (Item h) as [account|] eqn:Hitem.
  2:{ split; [reflexivity | now left]. }
  cbv zeta. destruct (String.eqb _ _).
  { split; [reflexivity | now left]. }
  destruct (hostGetNewSession hst d "MANAGEMENT") as [s|e].
  2:{ split; [reflexivity | right; left; eauto]. }
  destruct (AccountResourceGroup account) as [rg'|] eqn:Hrg.
  2:{ split; [reflexivity | right; left; eauto]. }
  destruct (AccountName account) as [an'|] eqn:Han.
  2:{ split; [reflexivity | right; left; eauto]. }
  destruct (hostListMongoDBCollections hst _ _ _ _) as [[[items'|]]|e] eqn:Hlist; simpl.
  - pose proof (range_no_remote_call items' hst 0%nat account
                  (GetStringValue (EqualsQuals d !! "database_name")) None) as Hnone.
    destruct (runFrom hst 0 _) as [o' t']. simpl in *. split.
    + clear - Hnone. unfold remoteCalls in Hnone.
      induction t' as [|ev t' IH]; [reflexivity|].
      simpl in *. destruct ev; simpl in *; try discriminate; now apply IH.
    + right. right. exists s, account, rg', an'. eexists.
      split; [reflexivity|]. split; [exact Hrg|]. split; [exact Han|].
      unfold remoteCalls in *. simpl. now rewrite Hnone.
  - split; [reflexivity|]. right. right. exists s, account, rg', an'. eexists.
    split; [reflexivity|]. split; [exact Hrg|]. split; [exact Han|]. reflexivity.
  - split; [reflexivity|]. right. right. exists s, account, rg', an'. eexists.
    split; [reflexivity|]. split; [exact Hrg|]. split; [exact Han|]. reflexivity.
Qed.

(** X7: an account whose resource group or name is a nil pointer: once the
    session is open the list function panics on the dereference, before any
    list call. *)
Theorem enumerator_nil_account_pointer_panics hst d account session :
  GetStringValue (EqualsQuals d !! "database_name") <> "" ->
  hostGetNewSession hst d "MANAGEMENT" = inl session ->
  AccountResourceGroup account = None \/ AccountName account = None ->
  run hst (listCosmosDBMongoCollections d {| Item := AccountItem account |})
  = (Panicked NilDereference, [EvGetNewSession d "MANAGEMENT" (inl session)]).
Proof.
  intros Hdb Hs Hnil. rewrite list_run. simpl.
  apply String.eqb_neq in Hdb. rewrite Hdb, Hs.
  destruct (AccountResourceGroup account) as [rg|], (AccountName account) as [an|];
    try reflexivity.
  destruct Hnil; discriminate.
Qed.

(** X8: a list call that succeeds with a nil [Value]: the list function panics
    on the dereference and streams no row. *)
Theorem enumerator_nil_value_panics hst d h o t c rg an dn :
  run hst (listCosmosDBMongoCollections d h) = (o, t) ->
  In (EvListMongoDBCollections c rg an dn (inl {| documentdb.Value := None |})) t ->
  o = Panicked NilDereference
  /\ rows t = []
  /\ last t = Some (EvListMongoDBCollections c rg an dn
                      (inl {| documentdb.Value := None |})).
Proof.
  rewrite list_run. destruct (Item h) as [account|].
  2:{ intros [= <- <-] []. }
  cbv zeta. destruct (String.eqb _ _).
  { intros [= <- <-] []. }
  destruct (hostGetNewSession hst d "MANAGEMENT") as [s|e].
  2:{ intros [= <- <-] [Hin | []]. discriminate. }
  destruct (AccountResourceGroup account) as [rg'|].
  2:{ intros [= <- <-] [Hin | []]. discriminate. }
  destruct (AccountName account) as [an'|].
  2:{ intros [= <- <-] [Hin | []]. discriminate. }
  destruct (hostListMongoDBCollections hst _ _ _ _) as [[[items'|]]|e]; simpl.
  - destruct (runFrom hst 0 _) as [o' t'] eqn:Hloop.
    intros [= <- <-] [Hin | [Hin | Hin]]; try discriminate.
    exfalso. eapply (not_in_range_trace hst 0); [|rewrite Hloop; exact Hin].
    reflexivity.
  - intros [= <- <-] [Hin | [Hin | []]]; [discriminate|].
    injection Hin as <- <- <- <-. repeat split.
  - intros [= <- <-] [Hin | [Hin | []]]; discriminate.
Qed.

(** X9: the list function does not panic when its parent item is an account
    whose name and resource group are set, and every list call that succeeds
    answers a list of items whose identifiers have at least five segments. *)
Theorem enumerator_returns_on_well_formed_input hst d account rg an :
  AccountResourceGroup account = Some rg ->
  AccountName account = Some an ->
  (forall c dn result,
     hostListMongoDBCollections hst c rg an dn = inl result ->
     exists items, documentdb.Value result = Some items /\ Forall wellFormed items) ->
  exists e,
    (run hst (listCosmosDBMongoCollections d {| Item := AccountItem account |})).1
    = Returned (None, e).
Proof.
  intros Hrg Han Hhost. rewrite list_run. simpl.
  destruct (String.eqb _ _); [eexists; reflexivity|].
  destruct (hostGetNewSession hst d "MANAGEMENT") as [s|e]; [|eexists; reflexivity].
  rewrite Hrg, Han.
  destruct (hostListMongoDBCollections hst _ _ _ _) as [result|e] eqn:Hlist;
    [|eexists; reflexivity].
  destruct (Hhost _ _ _ Hlist) as (items & Hvalue & Hwf).
  destruct result as [value]. simpl in Hvalue. subst value. simpl.
  destruct (runFrom hst 0 _) as [o t] eqn:Hloop. simpl.
  destruct (range_outcome _ _ _ _ _ _ _ _ Hloop) as [_ Hend]. simpl in Hend.
  destruct Hend as [(Ho & _) | [(Ho & _) | (mc & Hmc & _ & Hp)]].
  - eexists. exact Ho.
  - eexists. exact Ho.
  - exfalso. apply (Forall_lookup_1 _ _ _ _ Hwf) in Hmc.
    apply wellFormed_segments in Hmc. destruct Hmc as (s1 & Hid & Hlen).
    destruct Hp as [[Hnil _] | (s2 & Hid' & Hlen' & _)]; [congruence|].
    rewrite Hid in Hid'. injection Hid' as <-. lia.
Qed.

(** ** What the get function does in every run *)

(** X10: the get function never panics, never streams a row, never polls the
    rows remaining and never issues a list call; it returns an item or an
    error, never both; and it makes at most two calls after its log line,
    the session and then the get call. *)
Theorem fetcher_always_returns hst d h :
  let r := run hst (getCosmosDBMongoCollection d h) in
  (exists v e, r.1 = Returned (v, e) /\ (v = None \/ e = None))
  /\ rows r.2 = []
  /\ polls r.2 = []
  /\ List.filter isListCall r.2 = []
  /\ (length (remoteCalls r.2) <= 2)%nat
  /\ head r.2 = Some (EvLoggerTrace "getCosmosDBMongoCollection").
Proof.
  cbv zeta. rewrite get_run. cbv zeta.
  destruct (_ || _)%bool.
  { simpl. repeat split; eauto; lia. }
  destruct (hostGetNewSession hst d "MANAGEMENT") as [s|e].
  2:{ simpl. repeat split; eauto; lia. }
  destruct (hostGetMongoDBCollection hst _ _ _ _ _) as [result|e];
    simpl; repeat split; eauto; lia.
Qed.

(** X11: when the session of the get function does not open, the function
    returns that error and issues no get call. *)
Theorem fetcher_session_failure_is_returned hst d h o t d' audience err :
  run hst (getCosmosDBMongoCollection d h) = (o, t) ->
  In (EvGetNewSession d' audience (inr err)) t ->
  o = Returned (None, Some err)
  /\ t = [EvLoggerTrace "getCosmosDBMongoCollection";
          EvGetNewSession d "MANAGEMENT" (inr err)]
  /\ List.filter isGetCall t = [].
Proof.
  rewrite get_run. cbv zeta.
  destruct (_ || _)%bool.
  { intros [= <- <-] [Hin | []]. discriminate. }
  destruct (hostGetNewSession hst d "MANAGEMENT") as [s|e].
  2:{ intros [= <- <-] [Hin | [Hin | []]]; [discriminate|].
      injection Hin as _ _ ->. repeat split. }
  destruct (hostGetMongoDBCollection hst _ _ _ _ _) as [result|e];
    intros [= <- <-] [Hin | [Hin | [Hin | []]]]; discriminate.
Qed.

(** X12: when the get call succeeds, the get function returns the record with
    the values of the key columns: the call was given the four qualifier
    values, and the account name, the database name and the resource group
    of the returned item are those values, not values of the record. *)
Theorem fetcher_returns_record_with_key hst d h o t c rg an dn cn result :
  run hst (getCosmosDBMongoCollection d h) = (o, t) ->
  In (EvGetMongoDBCollection c rg an dn cn (inl result)) t ->
  o = Returned (Some (fetchedInfo result an dn rg), None)
  /\ rg = GetStringValue (EqualsQuals d !! "resource_group")
  /\ an = GetStringValue (EqualsQuals d !! "account_name")
  /\ dn = GetStringValue (EqualsQuals d !! "database_name")
  /\ cn = GetStringValue (EqualsQuals d !! "name")
  /\ (3 <= String.length an)%nat
  /\ rg <> ""
  /\ exists session,
       hostGetNewSession hst d "MANAGEMENT" = inl session /\ c = clientOf session.
Proof.
  rewrite get_run. cbv zeta.
  destruct (_ || _)%bool eqn:Hcheck.
  { intros [= <- <-] [Hin | []]. discriminate. }
  apply orb_false_iff in Hcheck. destruct Hcheck as [Hlen Hrg].
  apply Nat.ltb_ge in Hlen. apply Nat.ltb_ge in Hrg.
  destruct (hostGetNewSession hst d "MANAGEMENT") as [s|e].
  2:{ intros [= <- <-] [Hin | [Hin | []]]; discriminate. }
  destruct (hostGetMongoDBCollection hst _ _ _ _ _) as [result'|e];
    intros [= <- <-] [Hin | [Hin | [Hin | []]]]; try discriminate.
  injection Hin as <- <- <- <- <- <-.
  repeat split; try assumption.
  - intros Hempty. rewrite Hempty in Hrg. simpl in Hrg. lia.
  - exists s. split; reflexivity.
Qed.

(** ** Segments of an identifier *)

Lemma Split_no_sep (sep : ascii) (a : string) :
  hasByte sep a = false -> strings.Split a sep = [a].
Proof.
  induction a as [|c a IH]; simpl; [reflexivity|].
  intros H. apply orb_false_iff in H. destruct H as [Hc Ha].
  rewrite Hc, (IH Ha). reflexivity.
Qed.

Lemma Split_app_sep (sep : ascii) (a b : string) :
  hasByte sep a = false ->
  strings.Split (a ++ String sep b) sep = a :: strings.Split b sep.
Proof.
  induction a as [|c a IH]; simpl.
  - intros _. now rewrite Ascii.eqb_refl.
  - intros H. apply orb_false_iff in H. destruct H as [Hc Ha].
    rewrite Hc, (IH Ha). reflexivity.
Qed.

(** X14: splitting gives one segment more than there are separators, and
    joining the segments with the separator gives the string back. *)
Theorem Split_segments (s : string) (sep : ascii) :
  length (strings.Split s sep) = S (countByte sep s)
  /\ String.concat (String sep EmptyString) (strings.Split s sep) = s
  /\ Forall (fun segment => hasByte sep segment = false) (strings.Split s sep).
Proof.
  induction s as [|c s (IHlen & IHcat & IHfree)]; simpl.
  - repeat split. repeat constructor.
  - destruct (Ascii.eqb_spec c sep) as [->|Hne].
    + simpl. split; [now rewrite IHlen|]. split.
      * destruct (strings.Split s sep) as [|hd tl]; [discriminate|].
        now rewrite IHcat.
      * constructor; [reflexivity | exact IHfree].
    + destruct (strings.Split s sep) as [|hd tl]; [discriminate|].
      simpl in *. split; [exact IHlen|]. split.
      * destruct tl as [|hd' tl]; simpl in *; now rewrite <- IHcat.
      * inversion IHfree as [|? ? Hhd Htl]; subst.
        constructor; [|exact Htl]. simpl. rewrite Hhd.
        apply Ascii.eqb_neq in Hne. now rewrite Hne.
Qed.

(** X15: segments without separator, joined with the separator, split into
    themselves. *)
Theorem Split_concat (sep : ascii) (segments : list string) :
  segments <> [] ->
  Forall (fun segment => hasByte sep segment = false) segments ->
  strings.Split (String.concat (String sep EmptyString) segments) sep = segments.
Proof.
  induction segments as [|a rest IH]; [congruence|].
  intros _ Hfree. inversion Hfree as [|? ? Ha Hrest]; subst.
  destruct rest as [|b rest].
  - simpl. now apply Split_no_sep.
  - change (String.concat (String sep "") (a :: b :: rest))
      with (a ++ String sep (String.concat (String sep "") (b :: rest))).
    rewrite (Split_app_sep _ _ _ Ha), IH; [reflexivity | discriminate | exact Hrest].
Qed.

(** X13: for an identifier of the provider's form,
    [/subscriptions/<id>/resourceGroups/<group>/...], the derivation of the
    list function gives the name of the group. *)
Theorem resource_group_of_provider_identifier (subscription group rest : string) :
  hasByte "/" subscription = false ->
  hasByte "/" group = false ->
  resourceGroupOf (Some ("/subscriptions/" ++ subscription
                         ++ "/resourceGroups/" ++ group ++ "/" ++ rest))
  = Some group
  /\ resourceGroupOf (Some ("/subscriptions/" ++ subscription
                            ++ "/resourceGroups/" ++ group))
     = Some group.
Proof.
  intros Hsub Hgroup. split.
  - change (strings.Split
              (EmptyString ++ String "/" ("subscriptions" ++ String "/"
                 (subscription ++ String "/" ("resourceGroups" ++ String "/"
                    (group ++ String "/" rest))))) "/" !! 4%nat = Some group).
    rewrite !Split_app_sep by (reflexivity || assumption). reflexivity.
  - change (strings.Split
              (EmptyString ++ String "/" ("subscriptions" ++ String "/"
                 (subscription ++ String "/" ("resourceGroups" ++ String "/"
                    group)))) "/" !! 4%nat = Some group).
    rewrite !Split_app_sep by (reflexivity || assumption).
    rewrite (Split_no_sep _ _ Hgroup). reflexivity.
Qed.

(** ** Columns *)

Section Columns.

Variables ToInt idToAkas : transform.TransformFunc.
Variable DefaultTransform : transform.ColumnTransforms.

Local Abbreviation columnOf := (declaredColumnValue ToInt idToAkas DefaultTransform).

(** X16: the columns that read a field path give the field the path names, for
    every item: a nil pointer on the way, at any depth, gives the null value
    and never an error.  The two columns with a helper hand it the field. *)
Theorem field_path_columns (i : mongoCollectionInfo) :
  let mc := MongoCollection i in
  let resource := field documentdb.Resource (documentdb.Properties mc) in
  let options := field documentdb.Options (documentdb.Properties mc) in
  columnOf "account_name" i = Some (inl (ofString (Account i)))
  /\ columnOf "database_name" i = Some (inl (ofString (Database i)))
  /\ columnOf "title" i = Some (inl (ofString (Name i)))
  /\ columnOf "id" i = Some (inl (ofString (documentdb.ID mc)))
  /\ columnOf "type" i = Some (inl (ofString (documentdb.Type_ mc)))
  /\ columnOf "tags" i = Some (inl (StrMap (documentdb.Tags mc)))
  /\ columnOf "analytical_storage_ttl" i
     = Some (inl (ofInt (field documentdb.AnalyticalStorageTTL resource)))
  /\ columnOf "collection_etag" i = Some (inl (ofString (field documentdb.Etag resource)))
  /\ columnOf "collection_id" i
     = Some (inl (ofString (field documentdb.ResourceID resource)))
  /\ columnOf "collection_rid" i = Some (inl (ofString (field documentdb.Rid resource)))
  /\ columnOf "throughput" i = Some (inl (ofInt (field documentdb.Throughput options)))
  /\ columnOf "autoscale_settings_max_throughput" i
     = Some (inl (ofInt (field documentdb.MaxThroughput
                                (field documentdb.AutoscaleSettings_ options))))
  /\ columnOf "collection_ts" i
     = Some (ToInt {| transform.Value := ofInt (field documentdb.Ts resource);
                      transform.HydrateItem := reflectInfo i;
                      transform.ColumnName := "collection_ts" |})
  /\ columnOf "akas" i
     = Some (idToAkas {| transform.Value := ofString (documentdb.ID mc);
                         transform.HydrateItem := reflectInfo i;
                         transform.ColumnName := "akas" |}).
Proof.
  destruct i as [[[[[res|] [[tp [auto|]]|]]|] id nm ty loc tags] a db n rg l];
    cbv zeta; simpl MongoCollection; simpl documentdb.Properties; unfold field;
    repeat split;
    unfold declaredColumnValue, columnValue; simpl;
    try reflexivity;
    match goal with
    | |- Some (match ?f ?x with _ => _ end) = Some (?f ?y) =>
        change x with y; destruct (f y); reflexivity
    end.
Qed.

(** X17: the row of a point lookup gives the key back in its [account_name]
    and [database_name] columns; its [resource_group] column is [toLower] of
    the key, so for a key of 7-bit bytes it is the key itself exactly when
    the key has no upper-case letter. *)
Theorem fetched_row_key_columns result accountName databaseName resourceGroup :
  let i := fetchedInfo result accountName databaseName resourceGroup in
  columnOf "account_name" i = Some (inl (Str accountName))
  /\ columnOf "database_name" i = Some (inl (Str databaseName))
  /\ columnOf "resource_group" i = Some (inl (Str (strings.ToLower resourceGroup)))
  /\ (isASCII resourceGroup = true ->
      columnOf "resource_group" i = Some (inl (Str (lowerCasedForm resourceGroup)))
      /\ (columnOf "resource_group" i = Some (inl (Str resourceGroup))
          <-> hasUpperCaseLetter resourceGroup = false)).
Proof.
  cbv zeta. split; [reflexivity|]. split; [reflexivity|].
  rewrite resource_group_value. simpl. split; [reflexivity|].
  intros _. rewrite <- ToLower_lowerCasedForm. split; [reflexivity|].
  rewrite <- ToLower_fixed. split; [intros [= H]; exact H | intros ->; reflexivity].
Qed.

End Columns.

(** ** The further properties at the examples *)

(** Three items and a limit of two rows: the rows are those of the first
    two items. *)
Lemma enumerator_rows_are_prefix_witness :
  let d := listQuery "db1" in
  let r := run (exampleHost threeCollections (inl shortCollection) (limitedTo 2))
               (listCosmosDBMongoCollections d exampleParent) in
  exists account,
    Item exampleParent = AccountItem account
    /\ (length (rows r.2) <= length threeCollections)%nat
    /\ Forall2 (streamedFrom account (GetStringValue (EqualsQuals d !! "database_name")))
         (rows r.2) (take (length (rows r.2)) threeCollections).
Proof.
  intros d r.
  exact (enumerator_rows_are_prefix _ d exampleParent r.1 r.2
           exampleClient "parent-rg" "acct1" "db1" threeCollections
           (surjective_pairing r)
           ltac:(vm_compute; right; left; reflexivity)).
Defined.

(** Three items and a limit of two rows: the run ends after two rows, at
    the answer 0. *)
Lemma enumerator_stops_only_at_zero_witness :
  let d := listQuery "db1" in
  let hst := exampleHost threeCollections (inl shortCollection) (limitedTo 2) in
  let r := run hst (listCosmosDBMongoCollections d exampleParent) in
  (length (rows r.2) < length threeCollections)%nat
  /\ (1 <= length (rows r.2))%nat
  /\ hostRowsRemaining hst (length (rows r.2)) = 0
  /\ (forall j, (1 <= j < length (rows r.2))%nat -> hostRowsRemaining hst j <> 0).
Proof.
  intros d hst r.
  assert (Hless : (length (rows r.2) < length threeCollections)%nat)
    by (vm_compute; lia).
  split; [exact Hless|].
  apply (enumerator_stops_only_at_zero hst d exampleParent (None, None) r.2
           exampleClient "parent-rg" "acct1" "db1" threeCollections
           ltac:(vm_compute; reflexivity)
           ltac:(vm_compute; right; left; reflexivity)
           Hless).
Defined.

(** A list with an item of a single segment in second place: the panic is
    the index out of range at that item. *)
Lemma enumerator_panic_names_the_item_witness :
  let d := listQuery "db1" in
  let mixed := [collectionIn "rg1" "c1"; shortCollection; collectionIn "rg1" "c3"] in
  let r := run (exampleHost mixed (inl shortCollection) unlimited)
               (listCosmosDBMongoCollections d exampleParent) in
  r.1 = Panicked (IndexOutOfRange 4 1)
  /\ exists mc,
       mixed !! length (rows r.2) = Some mc
       /\ ((documentdb.ID mc = None /\ IndexOutOfRange 4 1 = NilDereference)
           \/ exists s, documentdb.ID mc = Some s
                        /\ (length (strings.Split s "/") < 5)%nat
                        /\ IndexOutOfRange 4 1
                           = IndexOutOfRange 4 (length (strings.Split s "/"))).
Proof.
  intros d mixed r. split; [reflexivity|].
  exact (enumerator_panic_names_the_item
           (exampleHost mixed (inl shortCollection) unlimited)
           d exampleParent (IndexOutOfRange 4 1) r.2
           exampleClient "parent-rg" "acct1" "db1" mixed
           ltac:(vm_compute; reflexivity)
           ltac:(vm_compute; right; left; reflexivity)).
Defined.

(** A list call that fails: the error is returned and it is the last call. *)
Lemma enumerator_error_means_no_rows_witness :
  let d := listQuery "db1" in
  let r := run noListHost (listCosmosDBMongoCollections d exampleParent) in
  let err := remoteError "InternalServerError" in
  r.1 = Returned (None, Some err)
  /\ rows r.2 = []
  /\ (last r.2 = Some (EvGetNewSession d "MANAGEMENT" (inr err))
      \/ exists c rg an dn, last r.2 = Some (EvListMongoDBCollections c rg an dn (inr err))).
Proof.
  intros d r err. split; [reflexivity|].
  exact (proj2 (enumerator_error_means_no_rows noListHost d exampleParent
                  None (Some err) r.2 ltac:(vm_compute; reflexivity))
           err eq_refl).
Defined.

(** An account without resource group. *)
Lemma enumerator_nil_account_pointer_panics_witness :
  let d := listQuery "db1" in
  let account := {| AccountName := Some "acct1"; AccountResourceGroup := None |} in
  let hst := exampleHost threeCollections (inl shortCollection) unlimited in
  GetStringValue (EqualsQuals d !! "database_name") <> ""
  /\ run hst (listCosmosDBMongoCollections d {| Item := AccountItem account |})
     = (Panicked NilDereference, [EvGetNewSession d "MANAGEMENT" (inl exampleSession)]).
Proof.
  intros d account hst.
  assert (Hdb : GetStringValue (EqualsQuals d !! "database_name") <> "")
    by (vm_compute; discriminate).
  split; [exact Hdb|].
  exact (enumerator_nil_account_pointer_panics hst d account exampleSession
           Hdb eq_refl (or_introl eq_refl)).
Defined.

(** A list call that answers no [Value]. *)
Lemma enumerator_nil_value_panics_witness :
  let d := listQuery "db1" in
  let hst := {| hostGetNewSession := fun _ _ => inl exampleSession;
                hostListMongoDBCollections :=
                  fun _ _ _ _ => inl {| documentdb.Value := None |};
                hostGetMongoDBCollection := fun _ _ _ _ _ => inl shortCollection;
                hostRowsRemaining := unlimited |} in
  let r := run hst (listCosmosDBMongoCollections d exampleParent) in
  r.1 = Panicked NilDereference
  /\ rows r.2 = []
  /\ last r.2 = Some (EvListMongoDBCollections exampleClient "parent-rg" "acct1" "db1"
                        (inl {| documentdb.Value := None |})).
Proof.
  intros d hst r.
  exact (enumerator_nil_value_panics hst d exampleParent r.1 r.2
           exampleClient "parent-rg" "acct1" "db1"
           (surjective_pairing r)
           ltac:(vm_compute; right; left; reflexivity)).
Defined.

(** A host that answers three well-formed items. *)
Lemma enumerator_returns_on_well_formed_input_witness :
  let d := listQuery "db1" in
  let hst := exampleHost threeCollections (inl shortCollection) (limitedTo 2) in
  Forall wellFormed threeCollections
  /\ exists e,
       (run hst (listCosmosDBMongoCollections d {| Item := AccountItem exampleAccount |})).1
       = Returned (None, e).
Proof.
  intros d hst.
  assert (Hwf : Forall wellFormed threeCollections).
  { repeat (constructor; [eexists; vm_compute; reflexivity|]). constructor. }
  split; [exact Hwf|].
  apply (enumerator_returns_on_well_formed_input hst d exampleAccount
           "parent-rg" "acct1" eq_refl eq_refl).
  intros c dn result [= <-]. exists threeCollections. split; [reflexivity | exact Hwf].
Defined.

(** A session that does not open. *)
Lemma fetcher_session_failure_is_returned_witness :
  let d := getQuery "acct1" "rg1" "db1" "c1" in
  let r := run noSessionHost (getCosmosDBMongoCollection d exampleParent) in
  let err := remoteError "AuthenticationFailed" in
  r.1 = Returned (None, Some err)
  /\ r.2 = [EvLoggerTrace "getCosmosDBMongoCollection";
            EvGetNewSession d "MANAGEMENT" (inr err)]
  /\ List.filter isGetCall r.2 = [].
Proof.
  intros d r err.
  exact (fetcher_session_failure_is_returned noSessionHost d exampleParent r.1 r.2
           d "MANAGEMENT" err (surjective_pairing r)
           ltac:(vm_compute; right; left; reflexivity)).
Defined.

(** A lookup of the collection [c1] with the key (acct1, MyRG, db1, c1):
    the record lives under [rg1], the returned item carries [MyRG]. *)
Lemma fetcher_returns_record_with_key_witness :
  let d := getQuery "acct1" "MyRG" "db1" "c1" in
  let record := collectionIn "rg1" "c1" in
  let r := run (exampleHost [] (inl record) unlimited)
               (getCosmosDBMongoCollection d exampleParent) in
  r.1 = Returned (Some (fetchedInfo record "acct1" "db1" "MyRG"), None)
  /\ ResourceGroup (fetchedInfo record "acct1" "db1" "MyRG") = Some "MyRG"
  /\ resourceGroupOf (documentdb.ID record) = Some "rg1".
Proof.
  intros d record r.
  split; [|split; reflexivity].
  exact (proj1 (fetcher_returns_record_with_key _ d exampleParent r.1 r.2
                  exampleClient "MyRG" "acct1" "db1" "c1" record
                  (surjective_pairing r)
                  ltac:(vm_compute; right; right; left; reflexivity))).
Defined.

(** The segments of an identifier, joined and split again. *)
Lemma Split_concat_witness :
  let segments := [""; "subscriptions"; "sub1"; "resourceGroups"; "rg1"] in
  segments <> []
  /\ Forall (fun segment => hasByte "/" segment = false) segments
  /\ strings.Split "/subscriptions/sub1/resourceGroups/rg1" "/" = segments.
Proof.
  intros segments.
  assert (Hne : segments <> []) by discriminate.
  assert (Hfree : Forall (fun segment => hasByte "/" segment = false) segments)
    by (repeat constructor).
  split; [exact Hne|]. split; [exact Hfree|].
  exact (Split_concat "/" segments Hne Hfree).
Defined.

(** The identifier of a collection. *)
Lemma resource_group_of_provider_identifier_witness :
  hasByte "/" "sub1" = false
  /\ hasByte "/" "My-RG" = false
  /\ resourceGroupOf
       (Some "/subscriptions/sub1/resourceGroups/My-RG/providers/Microsoft.DocumentDB/databaseAccounts/acct1")
     = Some "My-RG".
Proof.
  split; [reflexivity|]. split; [reflexivity|].
  exact (proj1 (resource_group_of_provider_identifier "sub1" "My-RG"
                  "providers/Microsoft.DocumentDB/databaseAccounts/acct1"
                  eq_refl eq_refl)).
Defined.

(** The key [MyRG] comes back as [myrg]; the key [rg1] comes back as it
    is. *)
Lemma fetched_row_key_columns_witness :
  let record := collectionIn "rg1" "c1" in
  let column := declaredColumnValue passValue passValue [] "resource_group" in
  (isASCII "MyRG" = true
   /\ hasUpperCaseLetter "MyRG" = true
   /\ column (fetchedInfo record "acct1" "db1" "MyRG") = Some (inl (Str "myrg")))
  /\ (isASCII "rg1" = true
      /\ hasUpperCaseLetter "rg1" = false
      /\ column (fetchedInfo record "acct1" "db1" "rg1") = Some (inl (Str "rg1"))).
Proof.
  intros record column. split.
  - split; [reflexivity|]. split; [reflexivity|].
    destruct (fetched_row_key_columns passValue passValue [] record "acct1" "db1" "MyRG")
      as (_ & _ & _ & Hkey).
    exact (proj1 (Hkey eq_refl)).
  - split; [reflexivity|]. split; [reflexivity|].
    destruct (fetched_row_key_columns passValue passValue [] record "acct1" "db1" "rg1")
      as (_ & _ & _ & Hkey).
    exact (proj2 (proj2 (Hkey eq_refl)) eq_refl).
Defined.
